(** * Staff_Schedule: the progressive-priority gate-duty scheduler of [app.py]

    A shallow embedding of the Flask handlers of [app.py] and of the parts
    of Python and of the storage client they rely on, followed by the
    properties of the scheduler.

    - Rows of the [staffs] and [monthly_schedule] tables are records, the
      two tables are lists of rows in storage order. A column the code
      never sets on insert is null.
    - A request body is a record of the keys a handler reads; a key that
      is absent or null reads as [None], as with [data.get]. The values
      are strings ([busy_9_10] is read through [bool]).
    - A Python [dict] is an association list with unique keys kept in
      insertion order; a row object held in [staff_map] is reached through
      its key, so that a mutation of the object is a write at that key and
      is seen by every later reader of [staff_map].
    - A handler is a computation in a state-and-exception monad over the
      database; an exception that no handler catches ends the request.
    - [datetime.utcnow()] is a clock [utcnow : nat → string], read at [i]
      for the [i]-th reading of a request.
    - The storage client filters, orders, inserts, updates and deletes as
      its calls say: an update without a filter reaches every row, and
      [order("priority_count")] keeps rows with equal counters in storage
      order. *)

From stdpp Require Import list strings.
From Stdlib Require Import ZArith Lia Sorted.

Set Default Proof Using "Type".

(** ** Rows and tables *)

Record staff := Staff {
  staff_id : string;
  staff_name : string;
  department : string;
  busy_9_10 : bool;
  priority_count : Z;
  priority_updated_month : option string;
  updated_at : option string
}.

Record schedule_row := ScheduleRow {
  row_staff_id : string;
  row_month : string;
  row_weekday : string;
  row_gate : string
}.

Record db := Db {
  staffs : list staff;
  monthly_schedule : list schedule_row
}.

(** ** Python values the handlers use *)

Module Py.

(** Exceptions no handler of [app.py] catches. *)
Inductive exn :=
| TypeError
| KeyError (k : string)
| IndexError.

(** The truth value of what [data.get] read: absent, [None] and the
    empty string are falsy ([not x] holds), any other string is truthy. *)
Definition truthy (x : option string) : option string :=
  match x with
  | Some s => if decide (s = "") then None else Some s
  | None => None
  end.

(** [sorted(l, key=key)]: a stable sort, ascending in [key]. Elements
    with equal keys keep their relative order, which fixes the output
    whatever stable algorithm computes it. *)
Fixpoint insert_by {A} (key : A → Z) (x : A) (l : list A) : list A :=
  match l with
  | [] => [x]
  | y :: l' =>
      if (key x <=? key y)%Z then x :: l else y :: insert_by key x l'
  end.

Definition sorted {A} (key : A → Z) (l : list A) : list A :=
  foldr (insert_by key) [] l.

(** [d[k] = v]: an existing key keeps its position. *)
Fixpoint dict_set {V} (k : string) (v : V) (d : list (string * V))
  : list (string * V) :=
  match d with
  | [] => [(k, v)]
  | (k', v') :: d' =>
      if decide (k' = k) then (k, v) :: d' else (k', v') :: dict_set k v d'
  end.

(** [d.get(k)], and [d[k]] when the key is there. *)
Fixpoint dict_get {V} (k : string) (d : list (string * V)) : option V :=
  match d with
  | [] => None
  | (k', v) :: d' => if decide (k' = k) then Some v else dict_get k d'
  end.

(** A write through the object stored under [k]. *)
Definition dict_alter {V} (f : V → V) (k : string) (d : list (string * V))
  : list (string * V) :=
  (λ e, if decide (e.1 = k) then (e.1, f e.2) else e) <$> d.

(** [list(set(l))]: every element of [l] once. Python leaves the order
    to the hashes of the strings; the properties below depend on the
    members only. *)
Definition list_set (l : list string) : list string := remove_dups l.

End Py.

(** ** The state-and-exception monad of a request *)

Definition M (A : Type) : Type := db → (Py.exn + A) * db.

Global Instance M_ret : MRet M := λ A a d, (inr a, d).

Global Instance M_bind : MBind M := λ A B k c d,
  match c d with
  | (inl e, d') => (inl e, d')
  | (inr a, d') => k a d'
  end.

Definition ret {A} (a : A) : M A := mret a.

Definition raise {A} (e : Py.exn) : M A := λ d, (inl e, d).

(** [l[i]] and [d[k]], which raise when the index or key is missing. *)
Definition py_index {A} (l : list A) (i : nat) : M A :=
  match l !! i with
  | Some x => ret x
  | None => raise Py.IndexError
  end.

Definition py_getitem {V} (d : list (string * V)) (k : string) : M V :=
  match Py.dict_get k d with
  | Some v => ret v
  | None => raise (Py.KeyError k)
  end.

(** [x + "-01"]: string concatenation, a [TypeError] on [None]. *)
Definition py_add_str (x : option string) (suffix : string) : M string :=
  match x with
  | Some s => ret (s +:+ suffix)
  | None => raise Py.TypeError
  end.

(** [f"{x}"] *)
Definition py_str (x : option string) : string := default "None" x.

(** ** The storage client *)

Module Supabase.

(** [table("staffs").select("staff_id").eq("staff_id", sid)] *)
Definition select_staff (sid : string) : M (list staff) :=
  λ d, (inr (filter (λ s, staff_id s = sid) (staffs d)), d).

(** [table("staffs").select("*").eq("busy_9_10", False)
    .order("priority_count")].  Rows with equal counters come in storage
    order. *)
Definition free_staff (d : db) : list staff :=
  Py.sorted priority_count (filter (λ s, busy_9_10 s = false) (staffs d)).

Definition select_free_staff : M (list staff) :=
  λ d, (inr (free_staff d), d).

(** [table("staffs").update(...).eq("staff_id", sid)] *)
Definition update_staff (f : staff → staff) (sid : string) : M unit :=
  λ d, (inr (),
        Db ((λ s, if decide (staff_id s = sid) then f s else s) <$> staffs d)
           (monthly_schedule d)).

(** [table("staffs").update(...)] with no filter: every row. *)
Definition update_all_staff (f : staff → staff) : M unit :=
  λ d, (inr (), Db (f <$> staffs d) (monthly_schedule d)).

(** [table("staffs").insert(...)] *)
Definition insert_staff (s : staff) : M unit :=
  λ d, (inr (), Db (staffs d ++ [s]) (monthly_schedule d)).

(** [table("monthly_schedule").insert(...)] *)
Definition insert_schedule (r : schedule_row) : M unit :=
  λ d, (inr (), Db (staffs d) (monthly_schedule d ++ [r])).

(** [table("monthly_schedule").delete().eq("month", m)] *)
Definition delete_schedule (m : string) : M unit :=
  λ d, (inr (),
        Db (staffs d) (filter (λ r, row_month r ≠ m) (monthly_schedule d))).

End Supabase.

(** ** Responses *)

Record entry := Entry {
  entry_staff_id : string;
  entry_name : string;
  entry_gate : string
}.

(** The body given to [jsonify]. *)
Inductive payload :=
| ErrorBody (error : string)
| MessageBody (message : string)
| ScheduleBody (month : string)
    (scheduled_days : list (string * list entry))
    (shortage_days : list string).

(** A handler returns the body and the HTTP status. *)
Definition response : Type := payload * Z.

(** ** [add_or_update_staff] *)

Record staff_request := StaffRequest {
  req_staff_id : option string;
  req_staff_name : option string;
  req_department : option string;
  req_busy_9_10 : bool   (* [bool(data.get("busy_9_10"))] *)
}.

Definition add_or_update_staff (utcnow : nat → string) (data : staff_request)
  : M response :=
  match Py.truthy (req_staff_id data), Py.truthy (req_staff_name data),
        Py.truthy (req_department data) with
  | Some sid, Some name, Some dept =>
      existing ← Supabase.select_staff sid;
      match existing with
      | _ :: _ =>
          Supabase.update_staff
            (λ s, Staff (staff_id s) name dept (req_busy_9_10 data)
                    (priority_count s) (priority_updated_month s)
                    (Some (utcnow 0%nat)))
            sid;;
          ret (MessageBody "Staff updated", 200%Z)
      | [] =>
          Supabase.insert_staff
            (Staff sid name dept (req_busy_9_10 data) 0 None None);;
          ret (MessageBody "Staff added", 201%Z)
      end
  | _, _, _ =>
      ret (ErrorBody "staff_id, staff_name, department required", 400%Z)
  end.

(** ** [generate_monthly_schedule] *)

Definition weekdays : list string :=
  ["Monday"; "Tuesday"; "Wednesday"; "Thursday"; "Friday"; "Saturday"].

Definition gates : list string := ["Gate A"; "Gate B"; "Gate C"].

Definition TOTAL_SLOTS : nat := 6 * length weekdays.

(** The ceiling of the consumption loop. *)
Definition CEILING : Z := 3.

(** [{s["staff_id"]: s for s in staff_resp.data}] *)
Definition staff_map_of (data : list staff) : list (string * staff) :=
  foldl (λ m s, Py.dict_set (staff_id s) s m) [] data.

(** [staff["priority_count"] += 1] *)
Definition incr_priority (s : staff) : staff :=
  Staff (staff_id s) (staff_name s) (department s) (busy_9_10 s)
    (priority_count s + 1) (priority_updated_month s) (updated_at s).

(** One iteration of the consumption loop: [None] when it breaks, else
    the id appended to [assignments] and [staff_map] after the increment. *)
Definition loop_body (staff_map : list (string * staff))
  : option (string * list (string * staff)) :=
  let eligible := Py.sorted (λ e, priority_count e.2) staff_map in
  match eligible with
  | [] => None
  | (k, staff) :: _ =>
      if (CEILING <=? priority_count staff)%Z then None
      else Some (staff_id staff, Py.dict_alter incr_priority k staff_map)
  end.

(** [while len(assignments) < TOTAL_SLOTS]: [n] is
    [TOTAL_SLOTS - len(assignments)], one less after each append. *)
Fixpoint consume (n : nat) (staff_map : list (string * staff))
    (assignments : list string) : list string * list (string * staff) :=
  match n with
  | O => (assignments, staff_map)
  | S n' =>
      match loop_body staff_map with
      | None => (assignments, staff_map)
      | Some (sid, staff_map') => consume n' staff_map' (assignments ++ [sid])
      end
  end.

(** The variables the mapping loops update. *)
Record locals := Locals {
  idx : nat;
  shortage_days : list string;
  day_list : list entry
}.

Section mapping.
Variables (assignments : list string) (staff_map : list (string * staff))
          (month_date : string).

(** [for _ in range(n)], with its [break]. *)
Fixpoint seat_loop (n : nat) (day g : string) (st : locals) : M locals :=
  match n with
  | O => mret st
  | S n' =>
      if decide (length assignments ≤ idx st) then
        mret (Locals (idx st) (shortage_days st ++ [day]) (day_list st))
      else
        sid ← py_index assignments (idx st);
        staff ← py_getitem staff_map sid;
        Supabase.insert_schedule (ScheduleRow sid month_date day g);;
        seat_loop n' day g
          (Locals (S (idx st)) (shortage_days st)
             (day_list st ++ [Entry sid (staff_name staff) g]))
  end.

(** [for g in gates] *)
Fixpoint gate_loop (gs : list string) (day : string) (st : locals)
  : M locals :=
  match gs with
  | [] => mret st
  | g :: gs' => st' ← seat_loop 2 day g st; gate_loop gs' day st'
  end.

(** [for day in weekdays], from the current [idx], [shortage_days] and
    [scheduled_days]. *)
Fixpoint day_loop (days : list string) (i : nat) (short : list string)
    (scheduled_days : list (string * list entry))
  : M (list (string * list entry) * list string) :=
  match days with
  | [] => mret (scheduled_days, short)
  | day :: days' =>
      st ← gate_loop gates day (Locals i short []);
      day_loop days' (idx st) (shortage_days st)
        (match day_list st with
         | [] => scheduled_days
         | _ :: _ => Py.dict_set day (day_list st) scheduled_days
         end)
  end.
End mapping.

(** [for staff in staff_map.values()]: the write-back of the counters;
    [i] counts the readings of the clock. *)
Fixpoint persist (utcnow : nat → string) (month_date : string) (i : nat)
    (values : list staff) : M unit :=
  match values with
  | [] => mret ()
  | staff :: rest =>
      Supabase.update_staff
        (λ r, Staff (staff_id r) (staff_name r) (department r) (busy_9_10 r)
                (priority_count staff) (Some month_date) (Some (utcnow i)))
        (staff_id staff);;
      persist utcnow month_date (S i) rest
  end.

(** The handler once the staff are fetched. *)
Definition schedule_staff (utcnow : nat → string)
    (month_input month_date : string) (staff_resp : list staff)
  : M response :=
  let '(assignments, staff_map) :=
    consume TOTAL_SLOTS (staff_map_of staff_resp) [] in
  '(scheduled_days, short) ←
    day_loop assignments staff_map month_date weekdays 0 [] [];
  persist utcnow month_date 0 staff_map.*2;;
  ret (ScheduleBody month_input scheduled_days (Py.list_set short), 200%Z).

Record schedule_request := ScheduleRequest { req_month : option string }.

Definition generate_monthly_schedule (utcnow : nat → string)
    (data : schedule_request) : M response :=
  match Py.truthy (req_month data) with
  | None => ret (ErrorBody "month required", 400%Z)
  | Some month_input =>
      let month_date := month_input +:+ "-01" in
      staff_resp ← Supabase.select_free_staff;
      schedule_staff utcnow month_input month_date staff_resp
  end.

(** ** [reset_priority] and [delete_month_schedule] *)

Record confirm_request := ConfirmRequest {
  req_confirmation : option string;
  req_target_month : option string
}.

Definition reset_priority (utcnow : nat → string) (data : confirm_request)
  : M response :=
  if decide (req_confirmation data = Some "CONFIRM") then
    Supabase.update_all_staff
      (λ s, Staff (staff_id s) (staff_name s) (department s) (busy_9_10 s)
              0 None (Some (utcnow 0%nat)));;
    ret (MessageBody "All staff priorities reset", 200%Z)
  else ret (ErrorBody "Confirmation failed", 400%Z).

Definition delete_month_schedule (data : confirm_request) : M response :=
  if decide (req_confirmation data = Some "CONFIRM") then
    month_date ← py_add_str (req_target_month data) "-01";
    Supabase.delete_schedule month_date;;
    ret (MessageBody (py_str (req_target_month data) +:+ " deleted"), 200%Z)
  else ret (ErrorBody "Type CONFIRM", 400%Z).

(** ** [view_month_schedule] and [view_staffs] *)

(** The columns [view_month_schedule] selects. *)
Record slot_view := SlotView {
  view_staff_id : string;
  view_weekday : string;
  view_gate : string
}.

(** [table("monthly_schedule").select("staff_id, weekday, gate")
    .eq("month", month_date)] *)
Definition select_month (month_date : string) : M (list slot_view) :=
  λ d, (inr ((λ r, SlotView (row_staff_id r) (row_weekday r) (row_gate r))
             <$> filter (λ r, row_month r = month_date) (monthly_schedule d)),
        d).

(** [month] is a segment of the path of the request: a string. *)
Definition view_month_schedule (month : string) : M (list slot_view * Z) :=
  let month_date := month +:+ "-01" in
  res ← select_month month_date;
  mret (res, 200%Z).

(** The columns [view_staffs] selects. *)
Record staff_summary := StaffSummary {
  summary_staff_id : string;
  summary_staff_name : string;
  summary_priority_count : Z;
  summary_priority_updated_month : option string
}.

Section view_staffs.
(** The order of the database on the [staff_id] column. *)
Variable id_leb : string → string → bool.

Fixpoint insert_by_id (x : staff_summary) (l : list staff_summary)
  : list staff_summary :=
  match l with
  | [] => [x]
  | y :: l' =>
      if id_leb (summary_staff_id x) (summary_staff_id y) then x :: l
      else y :: insert_by_id x l'
  end.

(** [table("staffs").select("staff_id, staff_name, priority_count,
    priority_updated_month").order("staff_id")] *)
Definition select_summaries : M (list staff_summary) :=
  λ d, (inr (foldr insert_by_id []
               ((λ s, StaffSummary (staff_id s) (staff_name s)
                        (priority_count s) (priority_updated_month s))
                <$> staffs d)),
        d).

Definition view_staffs : M (list staff_summary * Z) :=
  res ← select_summaries;
  mret (res, 200%Z).
End view_staffs.

(** * Notions the properties are stated with *)

(** [staff_map] is well formed: a dictionary, whose keys are the ids of
    the rows it holds. *)
Definition wf_map (m : list (string * staff)) : Prop :=
  NoDup m.*1 ∧ Forall (λ e, e.1 = staff_id e.2) m.

(** [staff_map] when iteration [i] of the loop starts (and where the loop
    stopped, for a later [i]). *)
Fixpoint state_at (i : nat) (m : list (string * staff))
  : list (string * staff) :=
  match i with
  | O => m
  | S i' =>
      match loop_body m with
      | Some (_, m') => state_at i' m'
      | None => m
      end
  end.

(** Assignments still possible under the ceiling. *)
Definition capacity (m : list (string * staff)) : Z :=
  foldr (λ e acc, Z.max 0 (CEILING - priority_count e.2) + acc)%Z 0%Z m.

(** The sum the supply of a run is measured by. *)
Definition supply (l : list staff) : Z :=
  foldr (λ s acc, CEILING - priority_count s + acc)%Z 0%Z l.

(** The number of times [sid] was assigned. *)
Definition times_assigned (sid : string) (assignments : list string) : nat :=
  length (filter (λ x, x = sid) assignments).

(** Entry by entry, the final map against the map a run started from. *)
Definition moved_by (assignments : list string) (e0 e : string * staff)
  : Prop :=
  e.1 = e0.1
  ∧ priority_count e.2
    = (priority_count e0.2 + Z.of_nat (times_assigned e0.1 assignments))%Z
  ∧ (priority_count e.2 ≤ Z.max (priority_count e0.2) CEILING)%Z
  ∧ staff_id e.2 = staff_id e0.2 ∧ staff_name e.2 = staff_name e0.2.

(** Largest minus smallest; [0] for no value at all. *)
Definition spread (l : list Z) : Z :=
  match l with
  | [] => 0
  | x :: r => foldr Z.max x r - foldr Z.min x r
  end.

(** The counters of the staff that a run assigned, read in [m]. *)
Definition assigned_counts (assignments : list string)
    (m : list (string * staff)) : list Z :=
  (λ e, priority_count e.2) <$> filter (λ e, e.1 ∈ assignments) m.

(** The slots in layout order: weekday, then gate, then seat. *)
Definition slots_of_day (day : string) : list (string * string) :=
  g ← gates; replicate 2 (day, g).

Definition slot_layout : list (string * string) :=
  day ← weekdays; slots_of_day day.

(** The schedule rows that put [ids], in order, on [slots], in order. *)
Definition rows_for (month_date : string) (ids : list string)
    (slots : list (string * string)) : list schedule_row :=
  zip_with (λ sid slot, ScheduleRow sid month_date slot.1 slot.2) ids slots.

(** What a loop of the mapping leaves: no exception, the rows of the
    slots it could fill, the index after them, and the day added to
    [shortage_days] once for every gate that came up short. *)
Definition fills (assignments : list string) (month_date : string)
    (slots : list (string * string)) (day : string)
    (st : locals) (d : db) (res : (Py.exn + locals) * db) : Prop :=
  ∃ st' c,
    res = (inr st',
           Db (staffs d)
              (monthly_schedule d
               ++ rows_for month_date (drop (idx st) assignments) slots))
    ∧ idx st' = length assignments `min` (idx st + length slots)
    ∧ shortage_days st' = shortage_days st ++ replicate c day
    ∧ (0 < c ↔ length assignments < idx st + length slots).

(** A table row after the write-back of [values]: the first of [values]
    with its id, if any, gave it its counter and the month. *)
Fixpoint written_row (utcnow : nat → string) (month_date : string) (i : nat)
    (values : list staff) (r : staff) : staff :=
  match values with
  | [] => r
  | s :: rest =>
      if decide (staff_id r = staff_id s) then
        Staff (staff_id r) (staff_name r) (department r) (busy_9_10 r)
          (priority_count s) (Some month_date) (Some (utcnow i))
      else written_row utcnow month_date (S i) rest r
  end.

(** The ids a run assigns, in order, and [staff_map] when it ends. *)
Definition assignments_of (staff_resp : list staff) : list string :=
  (consume TOTAL_SLOTS (staff_map_of staff_resp) []).1.

Definition final_map_of (staff_resp : list staff) : list (string * staff) :=
  (consume TOTAL_SLOTS (staff_map_of staff_resp) []).2.

(** What a run reads of a fetched row. *)
Definition view (s : staff) : string * string * Z :=
  (staff_id s, staff_name s, priority_count s).

(** Two entries of [staff_map] that a run cannot tell apart. *)
Definition same_view (e1 e2 : string * staff) : Prop :=
  e1.1 = e2.1 ∧ view e1.2 = view e2.2.

(** Sample rows. *)
Definition sample (sid : string) (n : Z) : staff :=
  Staff sid ("Name of " +:+ sid) "Dept" false n None None.

Definition sample_clock (i : nat) : string := "2024-05-01T09:00:00".

Definition twelve_staff : list staff :=
  (λ sid, sample sid 0)
  <$> ["S01"; "S02"; "S03"; "S04"; "S05"; "S06";
       "S07"; "S08"; "S09"; "S10"; "S11"; "S12"].

Definition sample_table : db :=
  Db [sample "A" 0; Staff "X" "Name of X" "Dept" true 1 None None;
      sample "B" 3]
     [].

Definition other_table : db :=
  Db [Staff "X" "Name of X" "Dept" true 0 None None;
      Staff "A" "Name of A" "Physics" false 0 (Some "2024-04-01") None;
      Staff "B" "Name of B" "Maths" false 3 None (Some "2024-04-30")]
     [ScheduleRow "A" "2024-04-01" "Monday" "Gate A"].

(** The name [staff_map] holds for an id. *)
Definition name_in (m : list (string * staff)) (sid : string) : string :=
  default "" (staff_name <$> Py.dict_get sid m).

(** The entries of a day list that put [ids], in order, on [slots]. *)
Definition entries_for (m : list (string * staff)) (ids : list string)
    (slots : list (string * string)) : list entry :=
  zip_with (λ sid slot, Entry sid (name_in m sid) slot.2) ids slots.

(** The plan of a run: for the [j]-th weekday the entries of the
    assignments from the [6 * j]-th on its slots, a weekday without an
    entry left out. *)
Definition plan_for (m : list (string * staff)) (ids : list string)
  : list (string * list entry) :=
  filter (λ p, p.2 ≠ [])
    (imap (λ j day,
             (day, entries_for m (drop (6 * j) ids) (slots_of_day day)))
       weekdays).

(** The sum of the counters. *)
Definition counters_total (l : list staff) : Z :=
  foldr (λ s acc, priority_count s + acc)%Z 0%Z l.

(** A row without its [updated_at]. *)
Definition without_clock (s : staff) : staff :=
  Staff (staff_id s) (staff_name s) (department s) (busy_9_10 s)
    (priority_count s) (priority_updated_month s) None.

(** What [add_or_update_staff] may not change of a row. *)
Definition standing (s : staff) : string * Z * option string :=
  (staff_id s, priority_count s, priority_updated_month s).

(** * Properties *)

(** Closed decidable facts are settled by evaluation. *)
Ltac by_compute := refine (bool_decide_unpack _ _); vm_compute; exact I.

(** ** The stable sort *)

Section sorted_facts.
Context {A : Type} (key : A → Z).

Lemma insert_by_length x l :
  length (Py.insert_by key x l) = S (length l).
Proof.
  induction l as [|y l IH]; simpl; [done|].
  destruct (key x <=? key y)%Z; simpl; by rewrite ?IH.
Qed.

Lemma sorted_length l : length (Py.sorted key l) = length l.
Proof.
  induction l as [|x l IH]; simpl; [done|].
  by rewrite insert_by_length, IH.
Qed.

(** The head of [sorted] is the first element of the input that
    attains the least key. *)
Lemma sorted_head l e r :
  Py.sorted key l = e :: r →
  ∃ l1 l2, l = l1 ++ e :: l2
           ∧ Forall (λ x, key e < key x)%Z l1
           ∧ Forall (λ x, key e ≤ key x)%Z l2.
Proof.
  revert e r. induction l as [|x l IH]; intros e r; simpl; [done|].
  destruct (Py.sorted key l) as [|y r'] eqn:Hs; simpl.
  - intros [= <- <-].
    apply (f_equal length) in Hs. rewrite sorted_length in Hs.
    destruct l; [|done]. by exists [], [].
  - destruct (IH y r' eq_refl) as (l1 & l2 & -> & H1 & H2).
    destruct (Z.leb_spec (key x) (key y)); intros [= <- <-].
    + exists [], (l1 ++ y :: l2). split_and!; [done|by constructor|].
      apply Forall_app. split.
      * eapply Forall_impl; [exact H1|]. simpl. lia.
      * constructor; [lia|]. eapply Forall_impl; [exact H2|]. simpl. lia.
    + exists (x :: l1), l2. split_and!; [done| |done].
      constructor; [lia|done].
Qed.

Lemma sorted_nil l : Py.sorted key l = [] → l = [].
Proof.
  intros H. apply (f_equal length) in H. rewrite sorted_length in H.
  by destruct l.
Qed.
End sorted_facts.

(** ** Dictionaries *)

Section dict_facts.
Context {V : Type}.
Implicit Types (d : list (string * V)) (k : string).

Lemma dict_alter_keys (f : V → V) k d : (Py.dict_alter f k d).*1 = d.*1.
Proof.
  unfold Py.dict_alter. induction d as [|[k' v] d IH]; csimpl; [done|].
  rewrite IH. by case_decide.
Qed.

Lemma dict_alter_notin (f : V → V) k d :
  k ∉ d.*1 → Py.dict_alter f k d = d.
Proof.
  unfold Py.dict_alter. induction d as [|[k' v] d IH]; csimpl; [done|].
  rewrite not_elem_of_cons. intros [? ?]. rewrite IH by done.
  case_decide; simpl in *; congruence.
Qed.

(** With unique keys a write through [k] changes one entry. *)
Lemma dict_alter_middle (f : V → V) k v d1 d2 :
  NoDup (d1 ++ (k, v) :: d2).*1 →
  Py.dict_alter f k (d1 ++ (k, v) :: d2) = d1 ++ (k, f v) :: d2.
Proof.
  induction d1 as [|[k' v'] d1 IH]; csimpl.
  - intros [Hk _]%NoDup_cons. unfold Py.dict_alter. csimpl.
    rewrite decide_True by done. f_equal.
    by apply dict_alter_notin.
  - intros [Hk Hd]%NoDup_cons. unfold Py.dict_alter in *. csimpl.
    rewrite decide_False.
    + f_equal. by apply IH.
    + intros ->. apply Hk. rewrite fmap_app, elem_of_app. right. left.
Qed.

Lemma dict_set_keys k v d :
  (Py.dict_set k v d).*1 = if decide (k ∈ d.*1) then d.*1 else d.*1 ++ [k].
Proof.
  induction d as [|[k' v'] d IH]; csimpl; [done|].
  destruct (decide (k' = k)) as [->|Hne]; csimpl.
  - rewrite decide_True by left. done.
  - rewrite IH. destruct (decide (k ∈ d.*1)) as [Hin|Hnin].
    + rewrite decide_True by (by right). done.
    + rewrite decide_False; [done|].
      rewrite elem_of_cons. intros [?|?]; congruence.
Qed.

Lemma dict_set_fresh k v d : k ∉ d.*1 → Py.dict_set k v d = d ++ [(k, v)].
Proof.
  induction d as [|[k' v'] d IH]; csimpl; [done|].
  rewrite not_elem_of_cons. intros [? ?].
  rewrite decide_False by congruence. by rewrite IH.
Qed.

Lemma dict_set_NoDup k v d : NoDup d.*1 → NoDup (Py.dict_set k v d).*1.
Proof.
  intros Hd. rewrite dict_set_keys. case_decide; [done|].
  apply NoDup_app. split_and!; [done| |apply NoDup_singleton].
  intros x Hx ->%list_elem_of_singleton. done.
Qed.

Lemma dict_set_Forall (P : string * V → Prop) k v d :
  P (k, v) → Forall P d → Forall P (Py.dict_set k v d).
Proof.
  intros Hk. induction 1 as [|[k' v'] d Hx Hd IH]; csimpl.
  - by constructor.
  - case_decide; constructor; auto.
Qed.

Lemma dict_get_is_Some k d : k ∈ d.*1 → is_Some (Py.dict_get k d).
Proof.
  induction d as [|[k' v'] d IH]; csimpl.
  - by intros ?%elem_of_nil.
  - intros Hin. case_decide; [by eexists|].
    apply IH. apply elem_of_cons in Hin as [?|?]; [congruence|done].
Qed.
End dict_facts.

(** ** The consumption loop *)

Lemma staff_map_of_wf data : wf_map (staff_map_of data).
Proof.
  unfold staff_map_of.
  cut (∀ acc, wf_map acc →
         wf_map (foldl (λ m s, Py.dict_set (staff_id s) s m) acc data)).
  { intros H. apply H. split; [apply NoDup_nil_2|constructor]. }
  induction data as [|s data IH]; intros acc [Hk Hid]; simpl; [done|].
  apply IH. split.
  - by apply dict_set_NoDup.
  - by apply dict_set_Forall.
Qed.

(** For a fetch without repeated ids, [staff_map] holds the fetched rows
    in the order of the fetch. *)
Lemma staff_map_of_NoDup data :
  NoDup (staff_id <$> data) →
  staff_map_of data = (λ s, (staff_id s, s)) <$> data.
Proof.
  unfold staff_map_of.
  cut (∀ acc, NoDup (acc.*1 ++ (staff_id <$> data)) →
         foldl (λ m s, Py.dict_set (staff_id s) s m) acc data
         = acc ++ ((λ s, (staff_id s, s)) <$> data)).
  { intros H Hd. by rewrite (H []). }
  induction data as [|s data IH]; intros acc Hd; csimpl.
  - by rewrite app_nil_r.
  - csimpl in Hd. rewrite dict_set_fresh.
    + rewrite IH; [by rewrite <-app_assoc|].
      rewrite fmap_app. csimpl. by rewrite <-app_assoc.
    + apply NoDup_app in Hd as (_ & Hd & _). intros Hin.
      apply (Hd _ Hin). left.
Qed.

Lemma staff_map_of_keys data :
  NoDup (staff_id <$> data) → (staff_map_of data).*1 = staff_id <$> data.
Proof.
  intros Hd. rewrite staff_map_of_NoDup by done.
  rewrite <-list_fmap_compose. done.
Qed.

Lemma staff_map_of_values data :
  NoDup (staff_id <$> data) → (staff_map_of data).*2 = data.
Proof.
  intros Hd. rewrite staff_map_of_NoDup by done.
  rewrite <-list_fmap_compose. apply list_fmap_id.
Qed.

(** What one iteration does when it does not break. *)
Lemma loop_body_Some m sid m' :
  NoDup m.*1 →
  loop_body m = Some (sid, m') →
  ∃ l1 k s l2,
    m = l1 ++ (k, s) :: l2 ∧ sid = staff_id s
    ∧ (priority_count s < CEILING)%Z
    ∧ Forall (λ e, priority_count s < priority_count e.2)%Z l1
    ∧ Forall (λ e, priority_count s ≤ priority_count e.2)%Z l2
    ∧ m' = l1 ++ (k, incr_priority s) :: l2.
Proof.
  intros Hnd. unfold loop_body.
  destruct (Py.sorted _ m) as [|[k s] r] eqn:Hs; [done|].
  destruct (Z.leb_spec CEILING (priority_count s)); [done|].
  intros [= <- <-].
  apply sorted_head in Hs as (l1 & l2 & -> & H1 & H2).
  exists l1, k, s, l2. split_and!; try done.
  by apply dict_alter_middle.
Qed.

(** The loop breaks exactly when nobody is under the ceiling. *)
Lemma loop_body_None m :
  loop_body m = None ↔ Forall (λ e, CEILING ≤ priority_count e.2)%Z m.
Proof.
  unfold loop_body.
  destruct (Py.sorted _ m) as [|[k s] r] eqn:Hs.
  - apply sorted_nil in Hs as ->. split; [constructor|done].
  - apply sorted_head in Hs as (l1 & l2 & -> & H1 & H2). simpl in *.
    destruct (Z.leb_spec CEILING (priority_count s)).
    + split; [intros _|done]. apply Forall_app. split.
      * eapply Forall_impl; [exact H1|]. simpl. lia.
      * constructor; [done|]. eapply Forall_impl; [exact H2|]. simpl. lia.
    + split; [done|]. rewrite Forall_app, Forall_cons. simpl. lia.
Qed.

Lemma loop_body_wf m sid m' :
  wf_map m → loop_body m = Some (sid, m') → wf_map m'.
Proof.
  intros [Hnd Hid] Hb.
  destruct (loop_body_Some _ _ _ Hnd Hb)
    as (l1 & k & s & l2 & -> & _ & _ & _ & _ & ->).
  split.
  - revert Hnd. by rewrite !fmap_app, !fmap_cons.
  - revert Hid. rewrite !Forall_app, !Forall_cons. simpl. tauto.
Qed.

Lemma loop_body_keys m sid m' :
  loop_body m = Some (sid, m') → m'.*1 = m.*1.
Proof.
  unfold loop_body. destruct (Py.sorted _ m) as [|[k s] r]; [done|].
  case_match; [done|]. intros [= <- <-]. apply dict_alter_keys.
Qed.

Lemma state_at_wf i m : wf_map m → wf_map (state_at i m).
Proof.
  revert m. induction i as [|i IH]; intros m Hm; simpl; [done|].
  destruct (loop_body m) as [[sid m']|] eqn:Hb; [|done].
  eapply IH, loop_body_wf; eauto.
Qed.

Lemma state_at_keys i m : (state_at i m).*1 = m.*1.
Proof.
  revert m. induction i as [|i IH]; intros m; simpl; [done|].
  destruct (loop_body m) as [[sid m']|] eqn:Hb; [|done].
  rewrite IH. by eapply loop_body_keys.
Qed.

(** The accumulator of [consume] is a prefix of its result. *)
Lemma consume_acc n m acc :
  consume n m acc = (acc ++ (consume n m []).1, (consume n m []).2).
Proof.
  revert m acc. induction n as [|n IH]; intros m acc; simpl.
  - by rewrite app_nil_r.
  - destruct (loop_body m) as [[sid m']|]; simpl.
    + rewrite (IH m' (acc ++ [sid])), (IH m' [sid]). simpl.
      by rewrite <-app_assoc.
    + by rewrite app_nil_r.
Qed.

Lemma consume_S n m :
  consume (S n) m [] =
  match loop_body m with
  | Some (sid, m') => (sid :: (consume n m' []).1, (consume n m' []).2)
  | None => ([], m)
  end.
Proof.
  simpl. destruct (loop_body m) as [[sid m']|]; [|done].
  by rewrite consume_acc.
Qed.

(** Iteration [i] of a run is [loop_body] at [state_at i]. *)
Lemma consume_lookup n m i sid :
  (consume n m []).1 !! i = Some sid →
  loop_body (state_at i m) = Some (sid, state_at (S i) m).
Proof.
  revert m i. induction n as [|n IH]; intros m i; [done|].
  rewrite consume_S.
  destruct (loop_body m) as [[s0 m']|] eqn:Hb; [|done].
  destruct i as [|i]; simpl.
  - intros [= ->]. by rewrite Hb.
  - intros Hi. rewrite Hb. apply IH in Hi. simpl in Hi.
    destruct i; simpl in *; by rewrite ?Hb.
Qed.

Lemma consume_final n m :
  (consume n m []).2 = state_at (length (consume n m []).1) m.
Proof.
  revert m. induction n as [|n IH]; intros m; [done|].
  rewrite consume_S.
  destruct (loop_body m) as [[s0 m']|] eqn:Hb; simpl; [|done].
  by rewrite Hb, IH.
Qed.

(** *** How many assignments a run makes *)

Lemma capacity_app l1 l2 : capacity (l1 ++ l2) = (capacity l1 + capacity l2)%Z.
Proof.
  unfold capacity. induction l1 as [|e l1 IH]; simpl; [done|].
  rewrite IH. lia.
Qed.

Lemma capacity_nonneg m : (0 ≤ capacity m)%Z.
Proof. unfold capacity. induction m as [|e m IH]; simpl; lia. Qed.

Lemma capacity_exhausted m :
  Forall (λ e, CEILING ≤ priority_count e.2)%Z m → capacity m = 0%Z.
Proof.
  unfold capacity. induction 1 as [|e m He Hm IH]; simpl; [done|].
  rewrite IH. lia.
Qed.

Lemma loop_body_capacity m sid m' :
  NoDup m.*1 → loop_body m = Some (sid, m') →
  capacity m' = (capacity m - 1)%Z.
Proof.
  intros Hnd Hb.
  destruct (loop_body_Some _ _ _ Hnd Hb)
    as (l1 & k & s & l2 & -> & _ & Hlt & _ & _ & ->).
  rewrite !capacity_app. unfold capacity; simpl. lia.
Qed.

(** A run makes as many assignments as the slots and the ceiling allow. *)
Lemma consume_length n m :
  wf_map m →
  Z.of_nat (length (consume n m []).1) = Z.min (Z.of_nat n) (capacity m).
Proof.
  revert m. induction n as [|n IH]; intros m Hm.
  - simpl. pose proof (capacity_nonneg m). lia.
  - rewrite consume_S.
    destruct (loop_body m) as [[sid m']|] eqn:Hb.
    + pose proof (loop_body_capacity _ _ _ (proj1 Hm) Hb) as Hc.
      pose proof (capacity_nonneg m').
      simpl length. rewrite Nat2Z.inj_succ, IH by eauto using loop_body_wf.
      lia.
    + apply loop_body_None, capacity_exhausted in Hb. simpl. lia.
Qed.

(** *** How the counters move *)

Lemma times_assigned_cons sid x l :
  times_assigned sid (x :: l) =
  if decide (x = sid) then S (times_assigned sid l) else times_assigned sid l.
Proof.
  unfold times_assigned. rewrite filter_cons. by case_decide.
Qed.

Lemma times_assigned_notin sid l : sid ∉ l → times_assigned sid l = 0.
Proof.
  induction l as [|x l IH]; [done|].
  rewrite not_elem_of_cons, times_assigned_cons. intros [? ?].
  rewrite decide_False by done. auto.
Qed.

Lemma Forall2_impl_Forall {A B} (P : A → Prop) (R Q : A → B → Prop) l k :
  Forall P l → Forall2 R l k → (∀ x y, P x → R x y → Q x y) → Forall2 Q l k.
Proof.
  intros HP HR HQ. induction HR as [|x y l k Hxy HR IH]; [constructor|].
  apply Forall_cons in HP as [? ?]. constructor; auto.
Qed.

Lemma NoDup_middle_keys (l1 l2 : list (string * staff)) k s :
  NoDup (l1 ++ (k, s) :: l2).*1 →
  Forall (λ e, e.1 ≠ k) l1 ∧ Forall (λ e, e.1 ≠ k) l2.
Proof.
  rewrite fmap_app, fmap_cons. simpl.
  intros (_ & H2 & [H3 _]%NoDup_cons)%NoDup_app.
  split; apply Forall_forall; intros e He Heq.
  - apply (H2 k); [|left]. apply list_elem_of_fmap. by exists e.
  - apply H3. apply list_elem_of_fmap. by exists e.
Qed.

Lemma consume_moved n m :
  wf_map m →
  Forall2 (moved_by (consume n m []).1) m (consume n m []).2.
Proof.
  revert m. induction n as [|n IH]; intros m Hm.
  - simpl. apply Forall2_same_length_lookup_2; [done|].
    intros i e0 e H0 H. simplify_eq. unfold moved_by, times_assigned.
    simpl. split_and!; try done; lia.
  - rewrite consume_S.
    destruct (loop_body m) as [[sid m']|] eqn:Hb; simpl.
    + pose proof (IH m' (loop_body_wf _ _ _ Hm Hb)) as HI.
      destruct Hm as [Hnd Hid].
      destruct (loop_body_Some _ _ _ Hnd Hb)
        as (l1 & k & s & l2 & -> & -> & Hlt & _ & _ & ->).
      apply NoDup_middle_keys in Hnd as [Hk1 Hk2].
      apply Forall_app in Hid as [_ [Hks _]%Forall_cons]. simpl in Hks.
      subst k.
      apply Forall2_app_inv_l in HI as (k1 & k2' & H1 & H2 & ->).
      apply Forall2_cons_inv_l in H2 as (e & k2 & He & H2 & ->).
      assert (∀ e0 e' : string * staff, e0.1 ≠ staff_id s →
                moved_by (consume n (l1 ++ (staff_id s, incr_priority s) :: l2) []).1 e0 e' →
                moved_by (staff_id s :: (consume n (l1 ++ (staff_id s, incr_priority s) :: l2) []).1) e0 e')
        as Hother.
      { intros e0 e' Hne (? & ? & ? & ?). unfold moved_by.
        rewrite times_assigned_cons, decide_False by done. done. }
      apply Forall2_app; [|constructor].
      * eapply Forall2_impl_Forall; [exact Hk1|exact H1|exact Hother].
      * destruct He as (? & Hpc & Hmax & ? & ?). unfold moved_by.
        rewrite times_assigned_cons, decide_True by done.
        simpl in *. split_and!; try done; lia.
      * eapply Forall2_impl_Forall; [exact Hk2|exact H2|exact Hother].
    + apply Forall2_same_length_lookup_2; [done|].
      intros i e0 e H0 H. simplify_eq. unfold moved_by, times_assigned.
      simpl. split_and!; try done; lia.
Qed.

(** Only ids held in [staff_map] are assigned. *)
Lemma consume_assigned_keys n m :
  wf_map m → Forall (λ sid, sid ∈ m.*1) (consume n m []).1.
Proof.
  revert m. induction n as [|n IH]; intros m Hm; [constructor|].
  rewrite consume_S.
  destruct (loop_body m) as [[sid m']|] eqn:Hb; simpl; [|constructor].
  pose proof (IH m' (loop_body_wf _ _ _ Hm Hb)) as HI.
  rewrite (loop_body_keys _ _ _ Hb) in HI. constructor; [|done].
  destruct Hm as [Hnd Hid].
  destruct (loop_body_Some _ _ _ Hnd Hb)
    as (l1 & k & s & l2 & -> & -> & _).
  apply Forall_app in Hid as [_ [Hks _]%Forall_cons]. simpl in Hks.
  rewrite fmap_app, fmap_cons, elem_of_app, elem_of_cons. simpl. auto.
Qed.

(** *** How far apart the counters of the assigned staff end *)

Lemma foldr_max_ge x r : (x ≤ foldr Z.max x r)%Z.
Proof. induction r; simpl; lia. Qed.

Lemma foldr_min_le x r : (foldr Z.min x r ≤ x)%Z.
Proof. induction r; simpl; lia. Qed.

Lemma foldr_max_le b x r :
  (x ≤ b)%Z → Forall (λ y, y ≤ b)%Z r → (foldr Z.max x r ≤ b)%Z.
Proof. intros Hx. induction 1; simpl; lia. Qed.

Lemma foldr_min_ge a x r :
  (a ≤ x)%Z → Forall (λ y, a ≤ y)%Z r → (a ≤ foldr Z.min x r)%Z.
Proof. intros Hx. induction 1; simpl; lia. Qed.

Lemma spread_nonneg l : (0 ≤ spread l)%Z.
Proof.
  destruct l as [|x r]; simpl; [done|].
  pose proof (foldr_max_ge x r). pose proof (foldr_min_le x r). lia.
Qed.

Lemma spread_within a b l :
  Forall (λ x, a ≤ x ≤ b)%Z l → (spread l ≤ Z.max 0 (b - a))%Z.
Proof.
  destruct l as [|x r]; simpl; [lia|].
  intros [Hx Hr]%Forall_cons.
  assert (foldr Z.max x r ≤ b)%Z.
  { apply foldr_max_le; [lia|]. eapply Forall_impl; [exact Hr|]. simpl. lia. }
  assert (a ≤ foldr Z.min x r)%Z.
  { apply foldr_min_ge; [lia|]. eapply Forall_impl; [exact Hr|]. simpl. lia. }
  lia.
Qed.

Lemma lower_bound_exists (m : list (string * staff)) :
  ∃ μ, Forall (λ e, μ ≤ priority_count e.2)%Z m.
Proof.
  induction m as [|e m [μ IH]].
  - exists 0%Z. constructor.
  - exists (Z.min μ (priority_count e.2)). constructor; [lia|].
    eapply Forall_impl; [exact IH|]. simpl. lia.
Qed.

(** Progressive consumption: whoever has been assigned is at most one
    above the least counter, at every point of the run. *)
Lemma consume_level n m (A : list string) μ :
  wf_map m →
  Forall (λ e, μ ≤ priority_count e.2)%Z m →
  Forall (λ e, e.1 ∈ A → priority_count e.2 ≤ μ + 1)%Z m →
  ∃ μ',
    Forall (λ e, μ' ≤ priority_count e.2)%Z (consume n m []).2
    ∧ Forall (λ e, e.1 ∈ A ∨ e.1 ∈ (consume n m []).1 →
                   priority_count e.2 ≤ μ' + 1)%Z (consume n m []).2.
Proof.
  revert m A μ. induction n as [|n IH]; intros m A μ Hm Hlo Hhi.
  - exists μ. split; [done|]. simpl.
    eapply Forall_impl; [exact Hhi|]. simpl.
    intros e He [?|?%elem_of_nil]; by auto.
  - rewrite consume_S.
    destruct (loop_body m) as [[sid m']|] eqn:Hb; simpl.
    + pose proof (loop_body_wf _ _ _ Hm Hb) as Hm'.
      destruct Hm as [Hnd Hid].
      destruct (loop_body_Some _ _ _ Hnd Hb)
        as (l1 & k & s & l2 & -> & -> & Hlt & H1 & H2 & ->).
      apply NoDup_middle_keys in Hnd as [Hk1 Hk2].
      apply Forall_app in Hid as [_ [Hks _]%Forall_cons]. simpl in Hks.
      subst k.
      apply Forall_app in Hlo as [Hlo1 [Hlos Hlo2]%Forall_cons].
      apply Forall_app in Hhi as [Hhi1 [_ Hhi2]%Forall_cons].
      simpl in Hlos.
      destruct (IH _ (staff_id s :: A) (priority_count s) Hm') as (μ' & Ha & Hb').
      * apply Forall_app. split; [|constructor]; simpl.
        -- eapply Forall_impl; [exact H1|]. simpl. lia.
        -- lia.
        -- done.
      * apply Forall_app. split; [|constructor]; simpl.
        -- rewrite Forall_forall in Hhi1, Hk1 |- *. intros e He.
           intros [?|HA]%elem_of_cons; [by destruct (Hk1 e He)|].
           specialize (Hhi1 e He HA). lia.
        -- lia.
        -- rewrite Forall_forall in Hhi2, Hk2 |- *. intros e He.
           intros [?|HA]%elem_of_cons; [by destruct (Hk2 e He)|].
           specialize (Hhi2 e He HA). lia.
      * exists μ'. split; [done|].
        eapply Forall_impl; [exact Hb'|]. simpl. intros e He Hin.
        apply He. rewrite !elem_of_cons in *. tauto.
    + exists μ. split; [done|].
      eapply Forall_impl; [exact Hhi|]. simpl.
      intros e He [?|?%elem_of_nil]; by auto.
Qed.

Lemma consume_spread n m :
  wf_map m →
  (spread (assigned_counts (consume n m []).1 (consume n m []).2) ≤ 1)%Z.
Proof.
  intros Hm. destruct (lower_bound_exists m) as [μ Hlo].
  destruct (consume_level n m [] μ Hm Hlo) as (μ' & Ha & Hb).
  { eapply Forall_impl; [exact Hlo|]. simpl. by intros e _ ?%elem_of_nil. }
  etrans; [apply (spread_within μ' (μ' + 1))|lia]. unfold assigned_counts.
  apply Forall_fmap, Forall_forall. intros e [Hin He]%list_elem_of_filter.
  rewrite Forall_forall in Ha, Hb. simpl.
  specialize (Ha e He). specialize (Hb e He (or_intror Hin)). lia.
Qed.

(** ** The mapping of the assignments onto the slots *)

Lemma M_bind_unfold {A B} (k : A → M B) (c : M A) d :
  (c ≫= k) d =
  match c d with
  | (inl e, d') => (inl e, d')
  | (inr a, d') => k a d'
  end.
Proof. reflexivity. Qed.

Lemma zip_with_nil_r {A B C} (f : A → B → C) l : zip_with f l [] = [].
Proof. by destruct l. Qed.

Lemma zip_with_app_drop {A B C} (f : A → B → C) l k1 k2 :
  zip_with f l (k1 ++ k2)
  = zip_with f l k1 ++ zip_with f (drop (length k1) l) k2.
Proof.
  revert l. induction k1 as [|y k1 IH]; intros l; simpl.
  - by rewrite zip_with_nil_r, drop_0.
  - destruct l as [|x l]; simpl; [done|]. by rewrite IH.
Qed.

Lemma rows_for_app md ids k1 k2 :
  rows_for md ids (k1 ++ k2)
  = rows_for md ids k1 ++ rows_for md (drop (length k1) ids) k2.
Proof. apply zip_with_app_drop. Qed.

Lemma drop_min {A} (l : list A) n : drop (length l `min` n) l = drop n l.
Proof.
  destruct (decide (n ≤ length l)) as [?|?].
  - by rewrite Nat.min_r by lia.
  - rewrite Nat.min_l by lia. by rewrite !drop_ge by lia.
Qed.

Section mapping_facts.
Variables (assignments : list string) (staff_map : list (string * staff))
          (month_date : string).
Hypothesis assigned_known : Forall (λ sid, sid ∈ staff_map.*1) assignments.

Lemma seat_loop_fills n day g st d :
  idx st ≤ length assignments →
  fills assignments month_date (replicate n (day, g)) day st d
    (seat_loop assignments staff_map month_date n day g st d).
Proof using assigned_known.
  revert st d. induction n as [|n IH]; intros st d Hidx; simpl.
  - exists st, 0. unfold rows_for. rewrite zip_with_nil_r, !app_nil_r.
    destruct d. simpl. split_and!; [done|lia|done|lia].
  - case_decide as Hshort.
    + exists (Locals (idx st) (shortage_days st ++ [day]) (day_list st)), 1.
      unfold rows_for. rewrite drop_ge by done. simpl.
      rewrite app_nil_r. destruct d. simpl.
      split_and!; [done|lia|done|lia].
    + destruct (lookup_lt_is_Some_2 assignments (idx st)) as [sid Hsid];
        [lia|].
      assert (is_Some (Py.dict_get sid staff_map)) as [s Hs].
      { apply dict_get_is_Some.
        rewrite Forall_forall in assigned_known.
        apply assigned_known. by eapply list_elem_of_lookup_2. }
      rewrite M_bind_unfold. unfold py_index. rewrite Hsid. simpl.
      rewrite M_bind_unfold. unfold py_getitem. rewrite Hs. simpl.
      rewrite M_bind_unfold. simpl.
      match goal with
      | |- fills _ _ _ _ _ _ (seat_loop _ _ _ _ _ _ ?st2 ?d2) =>
          destruct (IH st2 d2) as (st' & c & -> & Hi & Hc & Hiff);
            [simpl; lia|]
      end.
      simpl in *. exists st', c.
      rewrite (drop_S _ _ _ Hsid). unfold rows_for. simpl.
      rewrite <-app_assoc. simpl.
      split_and!; [done|lia|done|lia].
Qed.

Lemma gate_loop_fills gs day st d :
  idx st ≤ length assignments →
  fills assignments month_date (g ← gs; replicate 2 (day, g)) day st d
    (gate_loop assignments staff_map month_date gs day st d).
Proof using assigned_known.
  revert st d. induction gs as [|g gs IH]; intros st d Hidx.
  - exists st, 0. simpl. unfold rows_for.
    rewrite zip_with_nil_r, !app_nil_r.
    destruct d. simpl. split_and!; [done|lia|done|lia].
  - change (gate_loop assignments staff_map month_date (g :: gs) day st d)
      with ((seat_loop assignments staff_map month_date 2 day g st
             ≫= gate_loop assignments staff_map month_date gs day) d).
    rewrite M_bind_unfold.
    destruct (seat_loop_fills 2 day g st d Hidx)
      as (st1 & c1 & -> & Hi1 & Hc1 & Hiff1).
    rewrite length_replicate in Hi1, Hiff1.
    match goal with
    | |- fills _ _ _ _ _ _ (gate_loop _ _ _ _ _ ?st2 ?d2) =>
        destruct (IH st2 d2) as (st' & c2 & -> & Hi2 & Hc2 & Hiff2);
          [lia|]
    end.
    cbn [staffs monthly_schedule] in *. exists st', (c1 + c2).
    rewrite bind_cons, rows_for_app, length_replicate.
    rewrite Hi1, Hc1 in *.
    rewrite drop_min, drop_drop.
    rewrite <-!app_assoc, replicate_add, Hc2, <-app_assoc.
    split_and!; [done| |done|]; rewrite ?length_app, ?length_replicate in *;
      lia.
Qed.

Lemma slots_of_day_length day : length (slots_of_day day) = 6.
Proof. reflexivity. Qed.

(** The whole mapping: the rows of the slots that could be filled, and
    in [shortage_days] the days whose six slots could not all be. *)
Lemma day_loop_fills days i short scheduled d :
  i ≤ length assignments →
  ∃ scheduled' short',
    day_loop assignments staff_map month_date days i short scheduled d
    = (inr (scheduled', short'),
       Db (staffs d)
          (monthly_schedule d
           ++ rows_for month_date (drop i assignments)
                (day ← days; slots_of_day day)))
    ∧ ∀ x, x ∈ short' ↔
           x ∈ short ∨ ∃ j, days !! j = Some x ∧ length assignments < i + 6 * (j + 1).
Proof using assigned_known.
  revert i short scheduled d.
  induction days as [|day days IH]; intros i short scheduled d Hi.
  - exists scheduled, short. simpl. unfold rows_for.
    rewrite zip_with_nil_r, app_nil_r. destruct d. split; [done|].
    intros x. split; [auto|]. by intros [?|(j & ? & _)].
  - change (day_loop assignments staff_map month_date (day :: days) i short
              scheduled d)
      with ((gate_loop assignments staff_map month_date gates day
               (Locals i short [])
             ≫= λ st,
               day_loop assignments staff_map month_date days (idx st)
                 (shortage_days st)
                 (match day_list st with
                  | [] => scheduled
                  | _ :: _ => Py.dict_set day (day_list st) scheduled
                  end)) d).
    rewrite M_bind_unfold.
    destruct (gate_loop_fills gates day (Locals i short []) d Hi)
      as (st & c & -> & Hi1 & Hc1 & Hiff1).
    fold (slots_of_day day) in *.
    rewrite slots_of_day_length in *. cbn [idx shortage_days] in *.
    match goal with
    | |- ∃ _ _, day_loop _ _ _ _ ?i2 ?short2 ?sch2 ?d2 = _ ∧ _ =>
        destruct (IH i2 short2 sch2 d2) as (sch' & short' & -> & Hshort);
          [lia|]
    end.
    cbn [staffs monthly_schedule]. exists sch', short'. split.
    + rewrite bind_cons, rows_for_app, slots_of_day_length.
      rewrite Hi1. rewrite drop_min, drop_drop.
      by rewrite <-app_assoc.
    + intros x. rewrite Hshort, Hc1, elem_of_app, elem_of_replicate.
      split.
      * intros [[?|[-> Hc]]|(j & Hj & Hlt)]; [by left| |].
        -- right. exists 0. split; [done|lia].
        -- right. exists (S j). split; [done|lia].
      * intros [?|(j & Hj & Hlt)]; [by left; left|].
        destruct j as [|j]; simpl in Hj.
        -- injection Hj as ->. left. right. split; [done|lia].
        -- right. exists j. split; [done|lia].
Qed.
End mapping_facts.

(** ** The write-back and the whole run *)

Lemma written_row_notin utcnow md i values r :
  staff_id r ∉ staff_id <$> values → written_row utcnow md i values r = r.
Proof.
  revert i. induction values as [|s rest IH]; intros i; csimpl; [done|].
  rewrite not_elem_of_cons. intros [? ?]. rewrite decide_False by done. auto.
Qed.

Lemma written_row_at utcnow md i values r j s :
  NoDup (staff_id <$> values) →
  values !! j = Some s → staff_id s = staff_id r →
  written_row utcnow md i values r
  = Staff (staff_id r) (staff_name r) (department r) (busy_9_10 r)
      (priority_count s) (Some md) (Some (utcnow (i + j))).
Proof.
  revert i j. induction values as [|s0 rest IH]; intros i j; csimpl; [done|].
  intros [Hs0 Hnd]%NoDup_cons Hj Hid. destruct j as [|j]; simpl in Hj.
  - injection Hj as ->. rewrite decide_True by done.
    by rewrite Nat.add_0_r.
  - rewrite decide_False.
    + rewrite (IH (S i) j) by done. do 3 f_equal. lia.
    + intros Heq. apply Hs0. rewrite <-Heq, <-Hid.
      apply list_elem_of_fmap. exists s. split; [done|].
      by eapply list_elem_of_lookup_2.
Qed.

Lemma persist_run utcnow md i values d :
  NoDup (staff_id <$> values) →
  persist utcnow md i values d
  = (inr (),
     Db (written_row utcnow md i values <$> staffs d) (monthly_schedule d)).
Proof.
  revert i d. induction values as [|s rest IH]; intros i [rows ms]; csimpl.
  - intros _. by rewrite list_fmap_id.
  - intros [Hs Hnd]%NoDup_cons. rewrite M_bind_unfold. simpl.
    rewrite IH by done. simpl. do 2 f_equal.
    rewrite <-list_fmap_compose. apply list_fmap_ext.
    intros _ r _. simpl. case_decide as Hid; [|done].
    apply written_row_notin. simpl. by rewrite Hid.
Qed.

Lemma final_map_keys data : (final_map_of data).*1 = (staff_map_of data).*1.
Proof. unfold final_map_of. by rewrite consume_final, state_at_keys. Qed.

Lemma final_map_wf data : wf_map (final_map_of data).
Proof.
  unfold final_map_of. rewrite consume_final.
  apply state_at_wf, staff_map_of_wf.
Qed.

Lemma wf_map_ids m : wf_map m → staff_id <$> m.*2 = m.*1.
Proof.
  intros [_ Hid]. induction Hid as [|[k s] m Hk _ IH]; csimpl; [done|].
  simpl in Hk. by rewrite IH, Hk.
Qed.

Lemma list_set_spec l : NoDup (Py.list_set l) ∧ ∀ x, x ∈ Py.list_set l ↔ x ∈ l.
Proof.
  unfold Py.list_set. split; [apply NoDup_remove_dups|].
  intros x. apply elem_of_remove_dups.
Qed.

(** A run never raises. It answers 200 with the days that came up short,
    adds the rows of the filled slots and writes the counters back. *)
Lemma schedule_staff_run utcnow month_input month_date data d :
  ∃ scheduled short,
    schedule_staff utcnow month_input month_date data d
    = (inr (ScheduleBody month_input scheduled (Py.list_set short), 200%Z),
       Db (written_row utcnow month_date 0 (final_map_of data).*2 <$> staffs d)
          (monthly_schedule d
           ++ rows_for month_date (assignments_of data) slot_layout))
    ∧ ∀ x, x ∈ short ↔
           ∃ j, weekdays !! j = Some x
                ∧ length (assignments_of data) < 6 * (j + 1).
Proof.
  pose proof (final_map_keys data) as Hkeys.
  pose proof (final_map_wf data) as Hwf.
  pose proof (consume_assigned_keys TOTAL_SLOTS _ (staff_map_of_wf data))
    as Hknown.
  unfold schedule_staff, assignments_of, final_map_of in *.
  destruct (consume TOTAL_SLOTS (staff_map_of data) []) as [a m].
  cbn [fst snd] in *. rewrite <-Hkeys in Hknown.
  destruct (day_loop_fills a m month_date Hknown weekdays 0 [] [] d)
    as (scheduled & short & Hrun & Hshort); [lia|].
  exists scheduled, short. split.
  - rewrite M_bind_unfold, Hrun. rewrite M_bind_unfold.
    rewrite persist_run by (by rewrite wf_map_ids; [apply Hwf|]).
    by rewrite drop_0.
  - intros x. rewrite Hshort. split.
    + by intros [?%elem_of_nil|?].
    + auto.
Qed.

(** ** Two runs side by side *)

Section side_by_side.
Context {A : Type} (R : A → A → Prop) (key : A → Z).
Hypothesis R_key : ∀ x y, R x y → key x = key y.

Lemma insert_by_rel x1 x2 l1 l2 :
  R x1 x2 → Forall2 R l1 l2 →
  Forall2 R (Py.insert_by key x1 l1) (Py.insert_by key x2 l2).
Proof using R_key.
  intros Hx. induction 1 as [|y1 y2 l1 l2 Hy Hl IH]; simpl.
  - by repeat constructor.
  - rewrite (R_key _ _ Hx), (R_key _ _ Hy).
    destruct (key x2 <=? key y2)%Z; by repeat constructor.
Qed.

Lemma sorted_rel l1 l2 :
  Forall2 R l1 l2 → Forall2 R (Py.sorted key l1) (Py.sorted key l2).
Proof using R_key.
  induction 1; simpl; [constructor|]. by apply insert_by_rel.
Qed.
End side_by_side.

Lemma dict_set_rel k v1 v2 (d1 d2 : list (string * staff)) :
  view v1 = view v2 → Forall2 same_view d1 d2 →
  Forall2 same_view (Py.dict_set k v1 d1) (Py.dict_set k v2 d2).
Proof.
  intros Hv. induction 1 as [|[k1 s1] [k2 s2] d1 d2 [Hk Hs] Hd IH]; simpl.
  - by repeat constructor.
  - simpl in Hk. subst k2. case_decide; by repeat constructor.
Qed.

Lemma staff_map_of_rel data1 data2 :
  view <$> data1 = view <$> data2 →
  Forall2 same_view (staff_map_of data1) (staff_map_of data2).
Proof.
  intros Hv. unfold staff_map_of.
  cut (∀ acc1 acc2, Forall2 same_view acc1 acc2 →
         Forall2 same_view
           (foldl (λ m s, Py.dict_set (staff_id s) s m) acc1 data1)
           (foldl (λ m s, Py.dict_set (staff_id s) s m) acc2 data2)).
  { intros H. apply H. constructor. }
  revert data2 Hv. induction data1 as [|s1 data1 IH];
    intros [|s2 data2] Hv acc1 acc2 Hacc; try done.
  csimpl in Hv.
  assert (view s1 = view s2 ∧ view <$> data1 = view <$> data2) as [Hs Hv']
    by (split; congruence).
  simpl. apply IH; [done|].
  assert (staff_id s1 = staff_id s2) as ->
    by (unfold view in Hs; congruence).
  by apply dict_set_rel.
Qed.

Lemma dict_alter_rel k (d1 d2 : list (string * staff)) :
  Forall2 same_view d1 d2 →
  Forall2 same_view (Py.dict_alter incr_priority k d1)
    (Py.dict_alter incr_priority k d2).
Proof.
  unfold Py.dict_alter.
  induction 1 as [|[k1 s1] [k2 s2] d1 d2 [Hk Hs] Hd IH]; csimpl.
  - constructor.
  - simpl in Hk. subst k2. constructor; [|done].
    case_decide; [|done]. split; [done|]. simpl in *.
    unfold view in *. simpl. congruence.
Qed.

(** The loop cannot tell the two maps apart either. *)
Lemma loop_body_rel m1 m2 :
  Forall2 same_view m1 m2 →
  match loop_body m1, loop_body m2 with
  | Some (sid1, m1'), Some (sid2, m2') =>
      sid1 = sid2 ∧ Forall2 same_view m1' m2'
  | None, None => True
  | _, _ => False
  end.
Proof.
  intros Hm. unfold loop_body.
  pose proof (sorted_rel same_view (λ e, priority_count e.2)) as Hs.
  assert (∀ x y, same_view x y → priority_count x.2 = priority_count y.2)
    as Hkey by (intros x y [_ H]; unfold view in H; by simplify_eq).
  specialize (Hs Hkey _ _ Hm).
  destruct Hs as [|[k1 s1] [k2 s2] r1 r2 [Hk Hv] _]; [done|].
  simpl in Hk, Hv. subst k2. unfold view in Hv.
  assert (priority_count s1 = priority_count s2) as -> by congruence.
  assert (staff_id s1 = staff_id s2) as -> by congruence.
  destruct (CEILING <=? priority_count s2)%Z; [done|].
  split; [done|]. by apply dict_alter_rel.
Qed.

Lemma consume_rel n m1 m2 acc :
  Forall2 same_view m1 m2 →
  (consume n m1 acc).1 = (consume n m2 acc).1
  ∧ Forall2 same_view (consume n m1 acc).2 (consume n m2 acc).2.
Proof.
  revert m1 m2 acc. induction n as [|n IH]; intros m1 m2 acc Hm; simpl.
  - done.
  - pose proof (loop_body_rel _ _ Hm) as Hb.
    destruct (loop_body m1) as [[sid1 m1']|], (loop_body m2) as [[sid2 m2']|];
      try done.
    destruct Hb as [-> Hm']. by apply IH.
Qed.

Lemma dict_get_rel k (m1 m2 : list (string * staff)) :
  Forall2 same_view m1 m2 →
  staff_name <$> Py.dict_get k m1 = staff_name <$> Py.dict_get k m2.
Proof.
  induction 1 as [|[k1 s1] [k2 s2] d1 d2 [Hk Hs] Hd IH]; simpl; [done|].
  simpl in Hk, Hs. subst k2. case_decide; [|done]. simpl.
  unfold view in Hs. congruence.
Qed.

Section mapping_side_by_side.
Variables (assignments : list string) (m1 m2 : list (string * staff))
          (month_date : string).
Hypothesis same_names : Forall2 same_view m1 m2.

(** The value a loop of the mapping computes depends neither on the
    table it adds rows to nor on what a run cannot see of the staff. *)
Lemma seat_loop_rel n day g st d1 d2 :
  (seat_loop assignments m1 month_date n day g st d1).1
  = (seat_loop assignments m2 month_date n day g st d2).1.
Proof using same_names.
  revert st d1 d2. induction n as [|n IH]; intros st d1 d2; simpl; [done|].
  case_decide; [done|].
  rewrite !M_bind_unfold. unfold py_index.
  destruct (assignments !! idx st) as [sid|]; simpl; [|done].
  rewrite !M_bind_unfold. unfold py_getitem.
  pose proof (dict_get_rel sid _ _ same_names) as Hn.
  destruct (Py.dict_get sid m1) as [s1|], (Py.dict_get sid m2) as [s2|];
    simpl in *; try done.
  injection Hn as ->. rewrite !M_bind_unfold. simpl. apply IH.
Qed.

Lemma gate_loop_rel gs day st d1 d2 :
  (gate_loop assignments m1 month_date gs day st d1).1
  = (gate_loop assignments m2 month_date gs day st d2).1.
Proof using same_names.
  revert st d1 d2. induction gs as [|g gs IH]; intros st d1 d2; [done|].
  cbn [gate_loop]. rewrite !M_bind_unfold.
  pose proof (seat_loop_rel 2 day g st d1 d2) as Hs.
  destruct (seat_loop assignments m1 month_date 2 day g st d1) as [[e1|a1] ?],
    (seat_loop assignments m2 month_date 2 day g st d2) as [[e2|a2] ?];
    simpl in Hs; simplify_eq; [done|]. apply IH.
Qed.

Lemma day_loop_rel days i short scheduled d1 d2 :
  (day_loop assignments m1 month_date days i short scheduled d1).1
  = (day_loop assignments m2 month_date days i short scheduled d2).1.
Proof using same_names.
  revert i short scheduled d1 d2.
  induction days as [|day days IH]; intros i short scheduled d1 d2; [done|].
  cbn [day_loop]. rewrite !M_bind_unfold.
  pose proof (gate_loop_rel gates day (Locals i short []) d1 d2) as Hs.
  destruct (gate_loop assignments m1 month_date gates day _ d1)
    as [[e1|a1] ?],
    (gate_loop assignments m2 month_date gates day _ d2) as [[e2|a2] ?];
    simpl in Hs; simplify_eq; [done|]. apply IH.
Qed.
End mapping_side_by_side.

(** ** The run as a whole *)

Lemma assignments_length data :
  Z.of_nat (length (assignments_of data))
  = Z.min (Z.of_nat TOTAL_SLOTS) (capacity (staff_map_of data)).
Proof. apply consume_length, staff_map_of_wf. Qed.

Lemma slot_layout_length : length slot_layout = TOTAL_SLOTS.
Proof. reflexivity. Qed.

Lemma staff_map_of_Forall (P : staff → Prop) data :
  Forall P data → Forall (λ e, P e.2) (staff_map_of data).
Proof.
  unfold staff_map_of.
  cut (∀ acc, Forall (λ e, P e.2) acc → Forall P data →
         Forall (λ e : string * staff, P e.2)
           (foldl (λ m s, Py.dict_set (staff_id s) s m) acc data)).
  { intros H. apply H. constructor. }
  induction data as [|s data IH]; intros acc Hacc Hd; simpl; [done|].
  apply Forall_cons in Hd as [? ?]. apply IH; [|done].
  by apply dict_set_Forall.
Qed.

Lemma supply_le_capacity m : (supply m.*2 ≤ capacity m)%Z.
Proof.
  unfold supply, capacity. induction m as [|e m IH]; csimpl; lia.
Qed.

(** C1. In each iteration of the consumption loop the scheduler takes the
    staff member that comes first in fetch order among those holding the
    least [priority_count] of all eligible staff (everyone before it is
    strictly above, everyone after it is not below), whose counter is
    under the ceiling; the iteration leaves [staff_map] as it was but for
    that counter, which is one more before the next iteration selects;
    and the run stores the [i]-th assignment on the [i]-th slot of the
    layout. *)
Theorem progressive_selection utcnow month_input month_date data d i sid :
  NoDup (staff_id <$> data) →
  assignments_of data !! i = Some sid →
  ∃ l1 s l2 day gate,
    (state_at i (staff_map_of data)).*1 = staff_id <$> data
    ∧ state_at i (staff_map_of data) = l1 ++ (sid, s) :: l2
    ∧ staff_id s = sid
    ∧ (priority_count s < CEILING)%Z
    ∧ Forall (λ e, priority_count s < priority_count e.2)%Z l1
    ∧ Forall (λ e, priority_count s ≤ priority_count e.2)%Z l2
    ∧ loop_body (state_at i (staff_map_of data))
      = Some (sid, state_at (S i) (staff_map_of data))
    ∧ state_at (S i) (staff_map_of data) = l1 ++ (sid, incr_priority s) :: l2
    ∧ priority_count (incr_priority s) = (priority_count s + 1)%Z
    ∧ slot_layout !! i = Some (day, gate)
    ∧ monthly_schedule
        (schedule_staff utcnow month_input month_date data d).2
      !! (length (monthly_schedule d) + i)
      = Some (ScheduleRow sid month_date day gate).
Proof.
  intros Hnd Hi.
  pose proof (consume_lookup _ _ _ _ Hi) as Hb.
  pose proof (state_at_wf i _ (staff_map_of_wf data)) as [Hk Hid].
  destruct (loop_body_Some _ _ _ Hk Hb)
    as (l1 & k & s & l2 & Hm & -> & Hlt & H1 & H2 & Hm').
  assert (k = staff_id s) as ->.
  { rewrite Hm in Hid.
    by apply Forall_app in Hid as [_ [? _]%Forall_cons]. }
  assert (i < length slot_layout) as Hslot.
  { apply lookup_lt_Some in Hi. rewrite slot_layout_length.
    pose proof (assignments_length data). lia. }
  apply lookup_lt_is_Some_2 in Hslot as [[day gate] Hslot].
  exists l1, s, l2, day, gate. split_and!; try done.
  - by rewrite state_at_keys, staff_map_of_keys.
  - destruct (schedule_staff_run utcnow month_input month_date data d)
      as (scheduled & short & -> & _).
    cbn [snd monthly_schedule].
    rewrite lookup_app_r by lia.
    replace (length (monthly_schedule d) + i - length (monthly_schedule d))
      with i by lia.
    unfold rows_for. rewrite lookup_zip_with, Hi, Hslot. done.
Qed.

Lemma progressive_selection_witness :
  NoDup (staff_id <$> [sample "A" 0; sample "B" 0; sample "C" 0])
  ∧ assignments_of [sample "A" 0; sample "B" 0; sample "C" 0] !! 4
    = Some "B"
  ∧ ∃ l1 s l2 day gate,
      (state_at 4 (staff_map_of [sample "A" 0; sample "B" 0; sample "C" 0])).*1
      = staff_id <$> [sample "A" 0; sample "B" 0; sample "C" 0]
      ∧ state_at 4 (staff_map_of [sample "A" 0; sample "B" 0; sample "C" 0])
        = l1 ++ ("B", s) :: l2
      ∧ staff_id s = "B"
      ∧ (priority_count s < CEILING)%Z
      ∧ Forall (λ e, priority_count s < priority_count e.2)%Z l1
      ∧ Forall (λ e, priority_count s ≤ priority_count e.2)%Z l2
      ∧ loop_body
          (state_at 4 (staff_map_of [sample "A" 0; sample "B" 0; sample "C" 0]))
        = Some ("B",
                state_at 5
                  (staff_map_of [sample "A" 0; sample "B" 0; sample "C" 0]))
      ∧ state_at 5 (staff_map_of [sample "A" 0; sample "B" 0; sample "C" 0])
        = l1 ++ ("B", incr_priority s) :: l2
      ∧ priority_count (incr_priority s) = (priority_count s + 1)%Z
      ∧ slot_layout !! 4 = Some (day, gate)
      ∧ monthly_schedule
          (schedule_staff sample_clock "2024-05" "2024-05-01"
             [sample "A" 0; sample "B" 0; sample "C" 0] (Db [] [])).2
        !! (length (monthly_schedule (Db [] [])) + 4)
        = Some (ScheduleRow "B" "2024-05-01" day gate).
Proof.
  assert (NoDup (staff_id <$> [sample "A" 0; sample "B" 0; sample "C" 0]))
    as Hnd by by_compute.
  split_and!; [exact Hnd|reflexivity|].
  apply (progressive_selection sample_clock "2024-05" "2024-05-01"
           [sample "A" 0; sample "B" 0; sample "C" 0] (Db [] []) 4 "B");
    [exact Hnd|reflexivity].
Defined.

(** C2. A run makes at most as many assignments as there are slots (36),
    and it makes that many whenever the sum of [3 - priority_count] over
    the eligible staff reaches the number of slots: over the staff held
    in [staff_map], which for a fetch with unique ids are the fetched
    rows. *)
Theorem assignment_count data :
  TOTAL_SLOTS = 36
  ∧ length (assignments_of data) ≤ TOTAL_SLOTS
  ∧ ((Z.of_nat TOTAL_SLOTS ≤ supply (staff_map_of data).*2)%Z →
     length (assignments_of data) = TOTAL_SLOTS)
  ∧ (NoDup (staff_id <$> data) → (Z.of_nat TOTAL_SLOTS ≤ supply data)%Z →
     length (assignments_of data) = TOTAL_SLOTS).
Proof.
  pose proof (assignments_length data) as Hlen.
  pose proof (supply_le_capacity (staff_map_of data)) as Hs.
  split_and!; [done|lia|lia|].
  intros Hnd Hd. rewrite staff_map_of_values in Hs by done. lia.
Qed.

Lemma assignment_count_witness :
  (Z.of_nat TOTAL_SLOTS ≤ supply (staff_map_of twelve_staff).*2)%Z
  ∧ NoDup (staff_id <$> twelve_staff)
  ∧ (Z.of_nat TOTAL_SLOTS ≤ supply twelve_staff)%Z
  ∧ length (assignments_of twelve_staff) = TOTAL_SLOTS
  ∧ length (assignments_of twelve_staff) = TOTAL_SLOTS.
Proof.
  assert (Z.of_nat TOTAL_SLOTS ≤ supply (staff_map_of twelve_staff).*2)%Z
    as Hs by (vm_compute; discriminate).
  assert (NoDup (staff_id <$> twelve_staff)) as Hnd by by_compute.
  assert (Z.of_nat TOTAL_SLOTS ≤ supply twelve_staff)%Z
    as Hd by (vm_compute; discriminate).
  split_and!; [exact Hs|exact Hnd|exact Hd| |].
  - apply (proj1 (proj2 (proj2 (assignment_count twelve_staff)))). exact Hs.
  - apply (proj2 (proj2 (proj2 (assignment_count twelve_staff)))).
    + exact Hnd.
    + exact Hd.
Defined.

(** C3. When the eligible staff come with non-negative counters, nobody
    is assigned more than 3 times in a run, and nobody's final
    [priority_count] (what it had plus its assignments) is above the
    larger of what it had and the ceiling 3. *)
Theorem ceiling_respected data :
  Forall (λ s, 0 ≤ priority_count s)%Z data →
  (∀ sid, times_assigned sid (assignments_of data) ≤ 3)
  ∧ Forall2
      (λ e0 e,
         e.1 = e0.1
         ∧ priority_count e.2
           = (priority_count e0.2
              + Z.of_nat (times_assigned e0.1 (assignments_of data)))%Z
         ∧ (priority_count e.2 ≤ Z.max (priority_count e0.2) 3)%Z)
      (staff_map_of data) (final_map_of data).
Proof.
  intros Hpos.
  pose proof (consume_moved TOTAL_SLOTS _ (staff_map_of_wf data)) as Hmv.
  fold (assignments_of data) (final_map_of data) in Hmv.
  split.
  - intros sid.
    destruct (decide (sid ∈ (staff_map_of data).*1)) as [Hin|Hout].
    + apply list_elem_of_fmap in Hin as ([k s0] & -> & Hin).
      apply list_elem_of_lookup in Hin as [j Hj].
      destruct (Forall2_lookup_l _ _ _ _ _ Hmv Hj)
        as (e & _ & _ & Hpc & Hmax & _).
      apply (staff_map_of_Forall _ _) in Hpos.
      rewrite Forall_forall in Hpos.
      specialize (Hpos (k, s0) (list_elem_of_lookup_2 _ _ _ Hj)).
      unfold CEILING in *. simpl in *. lia.
    + pose proof (consume_assigned_keys TOTAL_SLOTS _ (staff_map_of_wf data))
        as Hkeys.
      fold (assignments_of data) in Hkeys.
      rewrite Forall_forall in Hkeys.
      rewrite times_assigned_notin; [lia|].
      intros Hin. by apply Hout, Hkeys.
  - eapply Forall2_impl; [exact Hmv|].
    intros e0 e (? & ? & ? & _). done.
Qed.

Lemma ceiling_respected_witness :
  Forall (λ s, 0 ≤ priority_count s)%Z [sample "A" 0; sample "B" 2]
  ∧ (∀ sid,
       times_assigned sid (assignments_of [sample "A" 0; sample "B" 2]) ≤ 3)
  ∧ Forall2
      (λ e0 e,
         e.1 = e0.1
         ∧ priority_count e.2
           = (priority_count e0.2
              + Z.of_nat
                  (times_assigned e0.1
                     (assignments_of [sample "A" 0; sample "B" 2])))%Z
         ∧ (priority_count e.2 ≤ Z.max (priority_count e0.2) 3)%Z)
      (staff_map_of [sample "A" 0; sample "B" 2])
      (final_map_of [sample "A" 0; sample "B" 2]).
Proof.
  assert (Forall (λ s, 0 ≤ priority_count s)%Z [sample "A" 0; sample "B" 2])
    as Hpos by (repeat constructor; simpl; lia).
  split; [exact Hpos|].
  apply (ceiling_respected [sample "A" 0; sample "B" 2] Hpos).
Defined.

(** *** Slots filled per weekday *)

Lemma rows_for_weekday md ids slots day :
  length (filter (λ r, row_weekday r = day) (rows_for md ids slots))
  = length (filter (λ s : string * string, s.1 = day)
              (take (length ids) slots)).
Proof.
  unfold rows_for. revert slots.
  induction ids as [|sid ids IH]; intros [|slot slots]; simpl; try done.
  rewrite !filter_cons. simpl. case_decide; simpl; by rewrite IH.
Qed.

(** Of the first [n] slots of the layout, those of the [j]-th weekday. *)
Lemma slot_layout_weekday n j day :
  weekdays !! j = Some day →
  length (filter (λ s : string * string, s.1 = day) (take n slot_layout))
  = 6 `min` (n - 6 * j).
Proof.
  intros Hj. destruct (decide (n ≤ 36)) as [Hn|Hn].
  - do 6 (destruct j as [|j];
          [injection Hj as <-;
           do 37 (destruct n as [|n]; [vm_compute; reflexivity|]); lia|]).
    done.
  - rewrite take_ge by (rewrite slot_layout_length; unfold TOTAL_SLOTS;
                        simpl; lia).
    do 6 (destruct j as [|j];
          [injection Hj as <-; rewrite Nat.min_l by lia;
           vm_compute; reflexivity|]).
    done.
Qed.

(** C4. The shortage list a run returns names a weekday at most once, and
    names it exactly when the assignments ran out before its 6 slots were
    filled: fewer than 6 of the rows the run stored are on that weekday,
    which for the [j]-th weekday means fewer than [6 * (j + 1)]
    assignments. The stored rows put the assignments on the slots in
    layout order, so no later assignment fills a slot of a short day. *)
Theorem shortage_days_reported utcnow month_input month_date data d :
  ∃ scheduled shortage d',
    schedule_staff utcnow month_input month_date data d
    = (inr (ScheduleBody month_input scheduled shortage, 200%Z), d')
    ∧ NoDup shortage
    ∧ monthly_schedule d'
      = monthly_schedule d
        ++ rows_for month_date (assignments_of data) slot_layout
    ∧ (∀ day,
         day ∈ shortage ↔
         day ∈ weekdays
         ∧ length (filter (λ r, row_weekday r = day)
                     (rows_for month_date (assignments_of data) slot_layout))
           < 6)
    ∧ (∀ j day,
         weekdays !! j = Some day →
         (day ∈ shortage ↔ length (assignments_of data) < 6 * (j + 1))).
Proof.
  destruct (schedule_staff_run utcnow month_input month_date data d)
    as (scheduled & short & -> & Hshort).
  destruct (list_set_spec short) as [Hnd Hset].
  assert (∀ j day, weekdays !! j = Some day →
            (day ∈ Py.list_set short
             ↔ length (assignments_of data) < 6 * (j + 1))) as Hidx.
  { intros j day Hj. rewrite Hset, Hshort. split; [|by eauto].
    intros (j' & Hj' & Hlt).
    assert (j' = j); [|by subst].
    eapply NoDup_lookup; [|exact Hj'|exact Hj].
    by_compute. }
  eexists _, _, _. split_and!; [done|done|done| |done].
  intros day. rewrite rows_for_weekday. split.
  - intros Hday. pose proof Hday as Hday'.
    rewrite Hset, Hshort in Hday'. destruct Hday' as (j & Hj & Hlt).
    split; [by eapply list_elem_of_lookup_2|].
    rewrite (slot_layout_weekday _ j) by done. lia.
  - intros [[j Hj]%list_elem_of_lookup Hlt].
    rewrite (slot_layout_weekday _ j) in Hlt by done.
    apply (Hidx j day Hj). lia.
Qed.

(** C6. After a run the counters of the staff it assigned are at most 1
    apart, so their largest minus their smallest is at most 1 more than
    it was for the same staff before the run. This holds for every run,
    exhausted or not. *)
Theorem fairness_spread data :
  (spread (assigned_counts (assignments_of data) (final_map_of data))
   ≤ spread (assigned_counts (assignments_of data) (staff_map_of data)) + 1)%Z
  ∧ (spread (assigned_counts (assignments_of data) (final_map_of data)) ≤ 1)%Z.
Proof.
  pose proof (consume_spread TOTAL_SLOTS _ (staff_map_of_wf data)) as Hs.
  fold (assignments_of data) (final_map_of data) in Hs.
  pose proof
    (spread_nonneg (assigned_counts (assignments_of data) (staff_map_of data))).
  split; lia.
Qed.

(** C7. Three eligible staff A, B and C with [priority_count] 0: the run
    makes 9 assignments, A, B, C in turn, and each of the three ends at 3;
    27 of the 36 slots stay unfilled; the shortage list names exactly the
    2nd to 6th weekdays, which are exactly the weekdays with a slot after
    the 9th of the layout. *)
Theorem three_staff_example utcnow month_input month_date
    na nb nc da db dc ma mb mc ua ub uc d :
  let data := [Staff "A" na da false 0 ma ua; Staff "B" nb db false 0 mb ub;
               Staff "C" nc dc false 0 mc uc] in
  assignments_of data = ["A"; "B"; "C"; "A"; "B"; "C"; "A"; "B"; "C"]
  ∧ (λ e, (e.1, priority_count e.2)) <$> final_map_of data
    = [("A", 3%Z); ("B", 3%Z); ("C", 3%Z)]
  ∧ loop_body (final_map_of data) = None
  ∧ length slot_layout - length (assignments_of data) = 27
  ∧ ∃ scheduled shortage d',
      schedule_staff utcnow month_input month_date data d
      = (inr (ScheduleBody month_input scheduled shortage, 200%Z), d')
      ∧ length (monthly_schedule d') = length (monthly_schedule d) + 9
      ∧ NoDup shortage
      ∧ (∀ day, day ∈ shortage ↔ day ∈ drop 1 weekdays)
      ∧ (∀ day, day ∈ shortage ↔
                ∃ i g, 9 ≤ i ∧ slot_layout !! i = Some (day, g)).
Proof.
  intros data.
  assert (assignments_of data
          = ["A"; "B"; "C"; "A"; "B"; "C"; "A"; "B"; "C"]) as Ha
    by (vm_compute; reflexivity).
  split_and!; [exact Ha|vm_compute; reflexivity|vm_compute; reflexivity
              |vm_compute; reflexivity|].
  destruct (schedule_staff_run utcnow month_input month_date data d)
    as (scheduled & short & Hrun & Hshort).
  destruct (list_set_spec short) as [Hnd Hset].
  rewrite Ha in Hshort. cbn [length] in Hshort.
  assert (∀ day, day ∈ Py.list_set short ↔ day ∈ drop 1 weekdays) as Hdays.
  { intros day. rewrite Hset, Hshort. split.
    - intros (j & Hj & Hlt). destruct j as [|j]; [lia|].
      apply list_elem_of_lookup. exists j. by rewrite lookup_drop.
    - intros [j Hj]%list_elem_of_lookup. rewrite lookup_drop in Hj.
      exists (1 + j). split; [done|lia]. }
  eexists _, _, _. split_and!; [exact Hrun| |done|done|].
  - cbn [monthly_schedule]. rewrite length_app, Ha. reflexivity.
  - intros day. rewrite Hdays. split.
    + intros [j Hj]%list_elem_of_lookup.
      destruct j as [|j]; [injection Hj as <-; exists 9, "Gate B"; by_compute|].
      destruct j as [|j]; [injection Hj as <-; exists 12, "Gate A"; by_compute|].
      destruct j as [|j]; [injection Hj as <-; exists 18, "Gate A"; by_compute|].
      destruct j as [|j]; [injection Hj as <-; exists 24, "Gate A"; by_compute|].
      destruct j as [|j]; [injection Hj as <-; exists 30, "Gate A"; by_compute|].
      discriminate Hj.
    + intros (i & g & Hi & Hs).
      do 9 (destruct i as [|i]; [lia|]).
      do 27 (destruct i as [|i]; [injection Hs as <- <-; by_compute|]).
      discriminate Hs.
Qed.

(** ** Requests that miss an input *)

Lemma add_or_update_staff_missing utcnow data d :
  Py.truthy (req_staff_id data) = None
  ∨ Py.truthy (req_staff_name data) = None
  ∨ Py.truthy (req_department data) = None →
  add_or_update_staff utcnow data d
  = (inr (ErrorBody "staff_id, staff_name, department required", 400%Z), d).
Proof.
  unfold add_or_update_staff.
  intros [H|[H|H]]; rewrite H; repeat case_match; done.
Qed.

Lemma generate_monthly_schedule_missing utcnow data d :
  Py.truthy (req_month data) = None →
  generate_monthly_schedule utcnow data d
  = (inr (ErrorBody "month required", 400%Z), d).
Proof. unfold generate_monthly_schedule. by intros ->. Qed.

Lemma delete_month_schedule_unconfirmed data d :
  req_confirmation data ≠ Some "CONFIRM" →
  delete_month_schedule data d = (inr (ErrorBody "Type CONFIRM", 400%Z), d).
Proof. intros H. unfold delete_month_schedule. by rewrite decide_False. Qed.

(** C8. The claim asks that a request without its month be answered with
    the missing-parameter error. [delete_month_schedule] does not look at
    [month] before it adds ["-01"] to it: a confirmed request without a
    month ends in an uncaught [TypeError], not in the 400 answer that
    [generate_monthly_schedule] gives for a missing month. The tables are
    as they were. *)
Theorem delete_month_without_month d :
  delete_month_schedule (ConfirmRequest (Some "CONFIRM") None) d
  = (inl Py.TypeError, d)
  ∧ generate_monthly_schedule sample_clock (ScheduleRequest None) d
    = (inr (ErrorBody "month required", 400%Z), d).
Proof. split; reflexivity. Qed.

(** C9. [reset_priority] with the confirmation ["CONFIRM"] sets the
    [priority_count] of every row of [staffs] to 0 and its
    [priority_updated_month] to null, whatever they were, and leaves the
    rest of the row and the schedule alone; with anything else, or with
    no confirmation, it answers 400 and changes nothing. *)
Theorem reset_priority_contract utcnow data d :
  (req_confirmation data = Some "CONFIRM" →
   ∃ d',
     reset_priority utcnow data d
     = (inr (MessageBody "All staff priorities reset", 200%Z), d')
     ∧ monthly_schedule d' = monthly_schedule d
     ∧ Forall2
         (λ r r',
            priority_count r' = 0%Z ∧ priority_updated_month r' = None
            ∧ staff_id r' = staff_id r ∧ staff_name r' = staff_name r
            ∧ department r' = department r ∧ busy_9_10 r' = busy_9_10 r)
         (staffs d) (staffs d'))
  ∧ (req_confirmation data ≠ Some "CONFIRM" →
     reset_priority utcnow data d
     = (inr (ErrorBody "Confirmation failed", 400%Z), d)).
Proof.
  unfold reset_priority. split; intros H.
  - rewrite decide_True by done. eexists. split_and!; [done|done|].
    simpl. apply Forall2_fmap_r, Forall_Forall2_diag, Forall_forall.
    by intros r _.
  - by rewrite decide_False.
Qed.

Lemma reset_priority_contract_witness :
  (∃ d',
     reset_priority sample_clock (ConfirmRequest (Some "CONFIRM") None)
       (Db [sample "A" 2; sample "B" 7] [])
     = (inr (MessageBody "All staff priorities reset", 200%Z), d')
     ∧ monthly_schedule d' = []
     ∧ Forall2
         (λ r r',
            priority_count r' = 0%Z ∧ priority_updated_month r' = None
            ∧ staff_id r' = staff_id r ∧ staff_name r' = staff_name r
            ∧ department r' = department r ∧ busy_9_10 r' = busy_9_10 r)
         [sample "A" 2; sample "B" 7] (staffs d'))
  ∧ reset_priority sample_clock (ConfirmRequest (Some "confirm") None)
      (Db [sample "A" 2; sample "B" 7] [])
    = (inr (ErrorBody "Confirmation failed", 400%Z),
       Db [sample "A" 2; sample "B" 7] []).
Proof.
  split.
  - apply (proj1 (reset_priority_contract sample_clock
                    (ConfirmRequest (Some "CONFIRM") None)
                    (Db [sample "A" 2; sample "B" 7] []))).
    reflexivity.
  - apply (proj2 (reset_priority_contract sample_clock
                    (ConfirmRequest (Some "confirm") None)
                    (Db [sample "A" 2; sample "B" 7] []))).
    simpl. discriminate.
Defined.

(** ** The write-back against the table *)

Lemma insert_by_Permutation {A} (key : A → Z) x l :
  Py.insert_by key x l ≡ₚ x :: l.
Proof.
  induction l as [|y l IH]; simpl; [done|].
  destruct (key x <=? key y)%Z; [done|]. rewrite IH. apply Permutation_swap.
Qed.

Lemma sorted_Permutation {A} (key : A → Z) l : Py.sorted key l ≡ₚ l.
Proof.
  induction l as [|x l IH]; simpl; [done|].
  by rewrite insert_by_Permutation, IH.
Qed.

Lemma elem_of_free_staff s d :
  s ∈ Supabase.free_staff d ↔ busy_9_10 s = false ∧ s ∈ staffs d.
Proof.
  unfold Supabase.free_staff. by rewrite sorted_Permutation, list_elem_of_filter.
Qed.

Lemma NoDup_fmap_filter {A B} (f : A → B) (P : A → Prop)
    `{!∀ x, Decision (P x)} l :
  NoDup (f <$> l) → NoDup (f <$> filter P l).
Proof.
  induction l as [|x l IH]; csimpl; [done|].
  intros [Hx Hl]%NoDup_cons. rewrite filter_cons.
  case_decide; csimpl; [|by auto].
  apply NoDup_cons. split; [|by auto].
  intros (y & Hy & [_ Hin]%list_elem_of_filter)%list_elem_of_fmap.
  apply Hx. apply list_elem_of_fmap. by exists y.
Qed.

Lemma free_staff_NoDup d :
  NoDup (staff_id <$> staffs d) → NoDup (staff_id <$> Supabase.free_staff d).
Proof.
  intros Hnd. unfold Supabase.free_staff. rewrite sorted_Permutation.
  by apply NoDup_fmap_filter.
Qed.

Lemma NoDup_fmap_elem_inj {A B} (f : A → B) l x y :
  NoDup (f <$> l) → x ∈ l → y ∈ l → f x = f y → x = y.
Proof.
  intros Hnd [i Hi]%list_elem_of_lookup [j Hj]%list_elem_of_lookup Hf.
  assert (i = j) as ->; [|congruence].
  eapply NoDup_lookup; [exact Hnd| |]; rewrite list_lookup_fmap.
  - by rewrite Hi.
  - rewrite Hj. simpl. by rewrite Hf.
Qed.

(** *** Staff ids stay unique *)

Lemma written_row_id utcnow md i values r :
  staff_id (written_row utcnow md i values r) = staff_id r.
Proof.
  revert i. induction values as [|s rest IH]; intros i; simpl; [done|].
  case_decide; [done|apply IH].
Qed.

(** No handler breaks the uniqueness of [staff_id] in [staffs]:
    [add_or_update_staff] inserts a row only for an id the table lacks,
    and the other handlers keep the ids of the rows. *)
Lemma add_or_update_staff_unique utcnow data d :
  NoDup (staff_id <$> staffs d) →
  NoDup (staff_id <$> staffs (add_or_update_staff utcnow data d).2).
Proof.
  intros Hnd. unfold add_or_update_staff.
  destruct (Py.truthy (req_staff_id data)) as [sid|]; [|done].
  destruct (Py.truthy (req_staff_name data)) as [name|]; [|done].
  destruct (Py.truthy (req_department data)) as [dept|]; [|done].
  rewrite M_bind_unfold. unfold Supabase.select_staff.
  destruct (filter (λ s, staff_id s = sid) (staffs d)) as [|s0 l] eqn:Hf.
  - rewrite M_bind_unfold. simpl. rewrite fmap_app. csimpl.
    apply NoDup_app. split_and!; [done| |apply NoDup_singleton].
    intros x (s & Hx & Hs)%list_elem_of_fmap Hsid%list_elem_of_singleton.
    assert (s ∈ filter (λ s, staff_id s = sid) (staffs d)) as Hin
      by (apply list_elem_of_filter; split; [congruence|done]).
    rewrite Hf in Hin. by apply elem_of_nil in Hin.
  - rewrite M_bind_unfold. simpl. rewrite <-list_fmap_compose.
    erewrite list_fmap_ext; [exact Hnd|].
    intros _ s _. simpl. by case_decide.
Qed.

Lemma generate_monthly_schedule_ids utcnow data d :
  staff_id <$> staffs (generate_monthly_schedule utcnow data d).2
  = staff_id <$> staffs d.
Proof.
  unfold generate_monthly_schedule.
  destruct (Py.truthy (req_month data)) as [month|]; [|done].
  rewrite M_bind_unfold. unfold Supabase.select_free_staff.
  destruct (schedule_staff_run utcnow month (month +:+ "-01")
              (Supabase.free_staff d) d) as (sch & short & -> & _).
  simpl. rewrite <-list_fmap_compose. apply list_fmap_ext.
  intros _ r _. apply written_row_id.
Qed.

Lemma reset_priority_ids utcnow data d :
  staff_id <$> staffs (reset_priority utcnow data d).2 = staff_id <$> staffs d.
Proof.
  unfold reset_priority. case_decide; [|done].
  simpl. by rewrite <-list_fmap_compose.
Qed.

Lemma delete_month_schedule_staffs data d :
  staffs (delete_month_schedule data d).2 = staffs d.
Proof.
  unfold delete_month_schedule. case_decide; [|done].
  by destruct (req_target_month data).
Qed.

(** C10. The write-back of a run reaches every row of [staffs] with
    [busy_9_10] false, the rows the run fetched: each keeps its identity,
    gets the month of the run in [priority_updated_month] and its counter
    plus its assignments of the run in [priority_count], were they none.
    A row with [busy_9_10] true is left as it was. Staff ids are unique
    in the table. *)
Theorem write_back_frame utcnow month d :
  month ≠ "" →
  NoDup (staff_id <$> staffs d) →
  ∃ scheduled shortage d',
    generate_monthly_schedule utcnow (ScheduleRequest (Some month)) d
    = (inr (ScheduleBody month scheduled shortage, 200%Z), d')
    ∧ Forall2
        (λ r r',
           if busy_9_10 r then r' = r
           else
             staff_id r' = staff_id r ∧ staff_name r' = staff_name r
             ∧ department r' = department r ∧ busy_9_10 r' = false
             ∧ priority_updated_month r' = Some (month +:+ "-01")
             ∧ priority_count r'
               = (priority_count r
                  + Z.of_nat (times_assigned (staff_id r)
                                (assignments_of (Supabase.free_staff d))))%Z)
        (staffs d) (staffs d').
Proof.
  intros Hmonth Hnd. unfold generate_monthly_schedule. simpl.
  rewrite decide_False by done.
  rewrite M_bind_unfold. unfold Supabase.select_free_staff.
  fold (Supabase.free_staff d). set (data := Supabase.free_staff d).
  destruct (schedule_staff_run utcnow month (month +:+ "-01") data d)
    as (scheduled & short & -> & _).
  eexists _, _, _. split; [done|]. cbn [staffs].
  pose proof (free_staff_NoDup d Hnd) as Hdata. fold data in Hdata.
  pose proof (final_map_wf data) as Hwf.
  assert (staff_id <$> (final_map_of data).*2 = staff_id <$> data) as Hids.
  { by rewrite (wf_map_ids _ Hwf), final_map_keys, staff_map_of_keys. }
  apply Forall2_fmap_r, Forall_Forall2_diag, Forall_forall. intros r Hr.
  destruct (busy_9_10 r) eqn:Hbusy.
  - unfold compose. apply written_row_notin. rewrite Hids.
    intros (s & Hid & [Hfree Hs]%elem_of_free_staff)%list_elem_of_fmap.
    pose proof (NoDup_fmap_elem_inj staff_id _ r s Hnd Hr Hs Hid).
    congruence.
  - assert (r ∈ data) as [j Hj]%list_elem_of_lookup
      by (by apply elem_of_free_staff).
    pose proof (consume_moved TOTAL_SLOTS _ (staff_map_of_wf data)) as Hmv.
    fold (assignments_of data) (final_map_of data) in Hmv.
    assert (staff_map_of data !! j = Some (staff_id r, r)) as Hj0.
    { rewrite staff_map_of_NoDup by done.
      by rewrite list_lookup_fmap, Hj. }
    destruct (Forall2_lookup_l _ _ _ _ _ Hmv Hj0)
      as ([k s] & Hjf & _ & Hpc & _ & Hid & _).
    simpl in Hpc, Hid. unfold compose.
    rewrite (written_row_at _ _ _ _ _ j s).
    + simpl. by rewrite Hpc.
    + by rewrite Hids.
    + by rewrite list_lookup_fmap, Hjf.
    + done.
Qed.

Lemma write_back_frame_witness :
  "2024-05" ≠ ""
  ∧ NoDup (staff_id <$> staffs sample_table)
  ∧ ∃ scheduled shortage d',
      generate_monthly_schedule sample_clock
        (ScheduleRequest (Some "2024-05")) sample_table
      = (inr (ScheduleBody "2024-05" scheduled shortage, 200%Z), d')
      ∧ Forall2
          (λ r r',
             if busy_9_10 r then r' = r
             else
               staff_id r' = staff_id r ∧ staff_name r' = staff_name r
               ∧ department r' = department r ∧ busy_9_10 r' = false
               ∧ priority_updated_month r' = Some ("2024-05" +:+ "-01")
               ∧ priority_count r'
                 = (priority_count r
                    + Z.of_nat (times_assigned (staff_id r)
                                  (assignments_of (Supabase.free_staff sample_table))))%Z)
          (staffs sample_table) (staffs d').
Proof.
  assert ("2024-05" ≠ "") as Hm by discriminate.
  assert (NoDup (staff_id <$> staffs sample_table)) as Hnd by by_compute.
  split_and!; [exact Hm|exact Hnd|].
  apply (write_back_frame sample_clock "2024-05" sample_table Hm Hnd).
Defined.

(** ** Determinism *)

Lemma assignments_of_rel data1 data2 :
  view <$> data1 = view <$> data2 →
  assignments_of data1 = assignments_of data2
  ∧ Forall2 same_view (final_map_of data1) (final_map_of data2).
Proof.
  intros Hv. apply consume_rel. by apply staff_map_of_rel.
Qed.

(** The answer of a run depends on the ids, names and counters of the
    fetched staff, in their order, and on nothing else. *)
Lemma schedule_staff_rel utcnow1 utcnow2 month_input month_date
    data1 data2 d1 d2 :
  view <$> data1 = view <$> data2 →
  (schedule_staff utcnow1 month_input month_date data1 d1).1
  = (schedule_staff utcnow2 month_input month_date data2 d2).1.
Proof.
  intros Hv. destruct (assignments_of_rel _ _ Hv) as [Ha Hm].
  pose proof (final_map_wf data1) as Hwf1.
  pose proof (final_map_wf data2) as Hwf2.
  unfold schedule_staff, assignments_of, final_map_of in *.
  destruct (consume TOTAL_SLOTS (staff_map_of data1) []) as [a1 m1].
  destruct (consume TOTAL_SLOTS (staff_map_of data2) []) as [a2 m2].
  cbn [fst snd] in *. subst a2. rewrite !M_bind_unfold.
  pose proof (day_loop_rel a1 m1 m2 month_date Hm weekdays 0 [] [] d1 d2)
    as Hd.
  destruct (day_loop a1 m1 month_date weekdays 0 [] [] d1) as [[e1|[s1 h1]] ?],
    (day_loop a1 m2 month_date weekdays 0 [] [] d2) as [[e2|[s2 h2]] ?];
    cbn [fst] in Hd; simplify_eq; [done|].
  rewrite !M_bind_unfold.
  rewrite !persist_run; [done| |].
  - rewrite (wf_map_ids _ Hwf2). apply Hwf2.
  - rewrite (wf_map_ids _ Hwf1). apply Hwf1.
Qed.

(** C5. Two runs for the same month whose fetches agree on the ids, the
    names and the counters of the eligible staff, in the same order, give
    the same plan: the same days with the same staff at the same gates,
    the same days short, and the same rows added to the schedule.
    Whatever else differs (the other columns, the rows of busy staff, the
    schedule already stored, the clock) does not show. *)
Theorem runs_agree utcnow1 utcnow2 month d1 d2 :
  month ≠ "" →
  view <$> Supabase.free_staff d1 = view <$> Supabase.free_staff d2 →
  ∃ scheduled shortage1 shortage2 rows d1' d2',
    generate_monthly_schedule utcnow1 (ScheduleRequest (Some month)) d1
    = (inr (ScheduleBody month scheduled shortage1, 200%Z), d1')
    ∧ generate_monthly_schedule utcnow2 (ScheduleRequest (Some month)) d2
      = (inr (ScheduleBody month scheduled shortage2, 200%Z), d2')
    ∧ (∀ day, day ∈ shortage1 ↔ day ∈ shortage2)
    ∧ monthly_schedule d1' = monthly_schedule d1 ++ rows
    ∧ monthly_schedule d2' = monthly_schedule d2 ++ rows
    ∧ rows = rows_for (month +:+ "-01") (assignments_of (Supabase.free_staff d1))
               slot_layout.
Proof.
  intros Hmonth Hv.
  pose proof (schedule_staff_rel utcnow1 utcnow2 month (month +:+ "-01")
                _ _ d1 d2 Hv) as Hrel.
  destruct (assignments_of_rel _ _ Hv) as [Ha _].
  unfold generate_monthly_schedule. simpl. rewrite decide_False by done.
  rewrite !M_bind_unfold. unfold Supabase.select_free_staff.
  fold (Supabase.free_staff d1) (Supabase.free_staff d2).
  destruct (schedule_staff_run utcnow1 month (month +:+ "-01")
              (Supabase.free_staff d1) d1) as (sch1 & short1 & Hrun1 & _).
  destruct (schedule_staff_run utcnow2 month (month +:+ "-01")
              (Supabase.free_staff d2) d2) as (sch2 & short2 & Hrun2 & _).
  rewrite Hrun1, Hrun2 in Hrel. rewrite Hrun1, Hrun2.
  cbn [fst] in Hrel. injection Hrel as -> Hshort.
  eexists _, _, _, _, _, _. split_and!; try done.
  - intros day. by rewrite Hshort.
  - cbn [monthly_schedule]. by rewrite Ha.
Qed.

Lemma runs_agree_witness :
  "2024-05" ≠ ""
  ∧ view <$> Supabase.free_staff sample_table = view <$> Supabase.free_staff other_table
  ∧ ∃ scheduled shortage1 shortage2 rows d1' d2',
      generate_monthly_schedule sample_clock
        (ScheduleRequest (Some "2024-05")) sample_table
      = (inr (ScheduleBody "2024-05" scheduled shortage1, 200%Z), d1')
      ∧ generate_monthly_schedule (λ _, "2024-06-02T10:00:00")
          (ScheduleRequest (Some "2024-05")) other_table
        = (inr (ScheduleBody "2024-05" scheduled shortage2, 200%Z), d2')
      ∧ (∀ day, day ∈ shortage1 ↔ day ∈ shortage2)
      ∧ monthly_schedule d1' = monthly_schedule sample_table ++ rows
      ∧ monthly_schedule d2' = monthly_schedule other_table ++ rows
      ∧ rows = rows_for ("2024-05" +:+ "-01")
                 (assignments_of (Supabase.free_staff sample_table)) slot_layout.
Proof.
  assert ("2024-05" ≠ "") as Hm by discriminate.
  assert (view <$> Supabase.free_staff sample_table = view <$> Supabase.free_staff other_table)
    as Hv by reflexivity.
  split_and!; [exact Hm|exact Hv|].
  apply (runs_agree sample_clock (λ _, "2024-06-02T10:00:00") "2024-05"
           sample_table other_table Hm Hv).
Defined.

(** * Further properties of the handlers *)

(** ** The staff table under the handlers *)

Lemma generate_monthly_schedule_run utcnow month d :
  month ≠ "" →
  ∃ scheduled short,
    generate_monthly_schedule utcnow (ScheduleRequest (Some month)) d
    = (inr (ScheduleBody month scheduled (Py.list_set short), 200%Z),
       Db (written_row utcnow (month +:+ "-01") 0
             (final_map_of (Supabase.free_staff d)).*2 <$> staffs d)
          (monthly_schedule d
           ++ rows_for (month +:+ "-01")
                (assignments_of (Supabase.free_staff d)) slot_layout))
    ∧ ∀ x, x ∈ short ↔
           ∃ j, weekdays !! j = Some x
                ∧ length (assignments_of (Supabase.free_staff d))
                  < 6 * (j + 1).
Proof.
  intros Hmonth. unfold generate_monthly_schedule. simpl.
  rewrite decide_False by done.
  rewrite M_bind_unfold. unfold Supabase.select_free_staff.
  apply schedule_staff_run.
Qed.

(** X1. Whatever the request, no handler that writes breaks the
    uniqueness of [staff_id] in the [staffs] table. *)
Theorem staff_ids_stay_unique utcnow staff_data schedule_data confirm_data d :
  NoDup (staff_id <$> staffs d) →
  NoDup (staff_id <$> staffs (add_or_update_staff utcnow staff_data d).2)
  ∧ NoDup (staff_id
           <$> staffs (generate_monthly_schedule utcnow schedule_data d).2)
  ∧ NoDup (staff_id <$> staffs (reset_priority utcnow confirm_data d).2)
  ∧ NoDup (staff_id <$> staffs (delete_month_schedule confirm_data d).2).
Proof.
  intros Hnd. split_and!.
  - by apply add_or_update_staff_unique.
  - by rewrite generate_monthly_schedule_ids.
  - by rewrite reset_priority_ids.
  - by rewrite delete_month_schedule_staffs.
Qed.

Lemma staff_ids_stay_unique_witness :
  NoDup (staff_id <$> staffs sample_table)
  ∧ NoDup (staff_id
           <$> staffs (add_or_update_staff sample_clock
                         (StaffRequest (Some "A") (Some "Ann") (Some "Maths")
                            true)
                         sample_table).2)
  ∧ NoDup (staff_id
           <$> staffs (generate_monthly_schedule sample_clock
                         (ScheduleRequest (Some "2024-05")) sample_table).2)
  ∧ NoDup (staff_id
           <$> staffs (reset_priority sample_clock
                         (ConfirmRequest (Some "CONFIRM") None)
                         sample_table).2)
  ∧ NoDup (staff_id
           <$> staffs (delete_month_schedule
                         (ConfirmRequest (Some "CONFIRM") None)
                         sample_table).2).
Proof.
  assert (NoDup (staff_id <$> staffs sample_table)) as Hnd by by_compute.
  split; [exact Hnd|].
  apply (staff_ids_stay_unique sample_clock
           (StaffRequest (Some "A") (Some "Ann") (Some "Maths") true)
           (ScheduleRequest (Some "2024-05"))
           (ConfirmRequest (Some "CONFIRM") None) sample_table Hnd).
Defined.

(** X2. Whatever the request, [add_or_update_staff] leaves the schedule
    alone and leaves every row of [staffs] its id, its [priority_count]
    and its [priority_updated_month]; the one row it may add comes with
    the counter 0 and no month. *)
Theorem add_or_update_staff_keeps_standing utcnow data d :
  monthly_schedule (add_or_update_staff utcnow data d).2 = monthly_schedule d
  ∧ ∃ added,
      standing <$> staffs (add_or_update_staff utcnow data d).2
      = (standing <$> staffs d) ++ added
      ∧ (added = []
         ∨ ∃ sid, Py.truthy (req_staff_id data) = Some sid
                  ∧ (sid ∉ staff_id <$> staffs d)
                  ∧ added = [(sid, 0%Z, None)]).
Proof.
  unfold add_or_update_staff.
  destruct (Py.truthy (req_staff_id data)) as [sid|];
    [|split; [done|]; exists []; rewrite app_nil_r; by auto].
  destruct (Py.truthy (req_staff_name data)) as [name|];
    [|split; [done|]; exists []; rewrite app_nil_r; by auto].
  destruct (Py.truthy (req_department data)) as [dept|];
    [|split; [done|]; exists []; rewrite app_nil_r; by auto].
  rewrite M_bind_unfold. unfold Supabase.select_staff.
  destruct (filter (λ s, staff_id s = sid) (staffs d)) as [|s0 l] eqn:Hf.
  - rewrite M_bind_unfold. simpl. split; [done|].
    exists [(sid, 0%Z, None)]. rewrite fmap_app. split; [done|].
    right. exists sid. split_and!; [done| |done].
    intros (s & Hs & Hin)%list_elem_of_fmap.
    assert (s ∈ filter (λ s, staff_id s = sid) (staffs d)) as Hin'
      by (apply list_elem_of_filter; split; [congruence|done]).
    rewrite Hf in Hin'. by apply elem_of_nil in Hin'.
  - rewrite M_bind_unfold. simpl. split; [done|].
    exists []. rewrite app_nil_r. split; [|by left].
    rewrite <-list_fmap_compose. apply list_fmap_ext.
    intros _ s _. simpl. by case_decide.
Qed.

(** X3. A request with its three fields is an upsert that can be
    repeated: after it the table holds a row with that id, every row with
    that id carries the requested name, department and busy flag, and the
    same request again answers "Staff updated" with 200 and changes
    nothing but [updated_at]. *)
Theorem add_or_update_staff_twice utcnow1 utcnow2 data d sid name dept :
  Py.truthy (req_staff_id data) = Some sid →
  Py.truthy (req_staff_name data) = Some name →
  Py.truthy (req_department data) = Some dept →
  ∃ message code d1 d2,
    add_or_update_staff utcnow1 data d = (inr (MessageBody message, code), d1)
    ∧ (code = 200%Z ∨ code = 201%Z)
    ∧ Exists (λ r, staff_id r = sid) (staffs d1)
    ∧ Forall (λ r, staff_id r = sid →
                   staff_name r = name ∧ department r = dept
                   ∧ busy_9_10 r = req_busy_9_10 data) (staffs d1)
    ∧ add_or_update_staff utcnow2 data d1
      = (inr (MessageBody "Staff updated", 200%Z), d2)
    ∧ without_clock <$> staffs d2 = without_clock <$> staffs d1
    ∧ monthly_schedule d2 = monthly_schedule d.
Proof.
  intros Hsid Hname Hdept.
  assert (∀ d1,
            Exists (λ r, staff_id r = sid) (staffs d1) →
            Forall (λ r, staff_id r = sid →
                         staff_name r = name ∧ department r = dept
                         ∧ busy_9_10 r = req_busy_9_10 data) (staffs d1) →
            ∃ d2,
              add_or_update_staff utcnow2 data d1
              = (inr (MessageBody "Staff updated", 200%Z), d2)
              ∧ without_clock <$> staffs d2 = without_clock <$> staffs d1
              ∧ monthly_schedule d2 = monthly_schedule d1) as Hagain.
  { intros d1 Hex Hall. unfold add_or_update_staff.
    rewrite Hsid, Hname, Hdept, M_bind_unfold. unfold Supabase.select_staff.
    destruct (filter (λ s, staff_id s = sid) (staffs d1)) as [|s0 l] eqn:Hf.
    - apply Exists_exists in Hex as (r & Hr & Hid).
      assert (r ∈ filter (λ s, staff_id s = sid) (staffs d1)) as Hin
        by (by apply list_elem_of_filter).
      rewrite Hf in Hin. by apply elem_of_nil in Hin.
    - rewrite M_bind_unfold. simpl. eexists. split_and!; [done| |done].
      simpl. rewrite <-list_fmap_compose. apply list_fmap_ext.
      intros i r Hi. simpl. case_decide as Hid; [|done].
      rewrite Forall_forall in Hall.
      destruct (Hall r (list_elem_of_lookup_2 _ _ _ Hi) Hid) as (<- & <- & <-).
      done. }
  unfold add_or_update_staff at 1.
  rewrite Hsid, Hname, Hdept, M_bind_unfold. unfold Supabase.select_staff.
  destruct (filter (λ s, staff_id s = sid) (staffs d)) as [|s0 l] eqn:Hf.
  - rewrite M_bind_unfold. simpl.
    match goal with
    | |- context [ret (MessageBody "Staff added", 201%Z) ?d1] =>
        destruct (Hagain d1) as (d2 & Hrun & Hrows & Hms)
    end.
    + simpl. apply Exists_app. right. by constructor.
    + simpl. apply Forall_app. split; [|by repeat constructor].
      apply Forall_forall. intros r Hr Hid.
      assert (r ∈ filter (λ s, staff_id s = sid) (staffs d)) as Hin
        by (by apply list_elem_of_filter).
      rewrite Hf in Hin. by apply elem_of_nil in Hin.
    + eexists _, _, _, d2. split_and!; [done|by right| | |done|done|done].
      * simpl. apply Exists_app. right. by constructor.
      * simpl. apply Forall_app. split; [|by repeat constructor].
        apply Forall_forall. intros r Hr Hid.
        assert (r ∈ filter (λ s, staff_id s = sid) (staffs d)) as Hin
          by (by apply list_elem_of_filter).
        rewrite Hf in Hin. by apply elem_of_nil in Hin.
  - rewrite M_bind_unfold. simpl.
    assert (s0 ∈ staffs d ∧ staff_id s0 = sid) as [Hs0 Hid0].
    { assert (s0 ∈ filter (λ s, staff_id s = sid) (staffs d)) as Hin
        by (rewrite Hf; left).
      apply list_elem_of_filter in Hin. tauto. }
    match goal with
    | |- context [ret (MessageBody "Staff updated", 200%Z) ?d1] =>
        assert (Exists (λ r, staff_id r = sid) (staffs d1)) as Hex;
        [|assert (Forall (λ r, staff_id r = sid →
                              staff_name r = name ∧ department r = dept
                              ∧ busy_9_10 r = req_busy_9_10 data)
                    (staffs d1)) as Hall;
          [|destruct (Hagain d1 Hex Hall) as (d2 & Hrun & Hrows & Hms)]]
    end.
    + simpl. apply Exists_exists. eexists. split.
      * apply list_elem_of_fmap. exists s0. split; [done|exact Hs0].
      * rewrite decide_True by done. done.
    + simpl. apply Forall_fmap, Forall_forall. intros r Hr. simpl.
      case_decide; [done|]. simpl. done.
    + eexists _, _, _, d2. split_and!; [done|by left|done|done|done|done|done].
Qed.

Lemma add_or_update_staff_twice_witness :
  Py.truthy (Some "D") = Some "D"
  ∧ Py.truthy (Some "Dan") = Some "Dan"
  ∧ Py.truthy (Some "Maths") = Some "Maths"
  ∧ ∃ message code d1 d2,
      add_or_update_staff sample_clock
        (StaffRequest (Some "D") (Some "Dan") (Some "Maths") false)
        sample_table
      = (inr (MessageBody message, code), d1)
      ∧ (code = 200%Z ∨ code = 201%Z)
      ∧ Exists (λ r, staff_id r = "D") (staffs d1)
      ∧ Forall (λ r, staff_id r = "D" →
                     staff_name r = "Dan" ∧ department r = "Maths"
                     ∧ busy_9_10 r = false) (staffs d1)
      ∧ add_or_update_staff sample_clock
          (StaffRequest (Some "D") (Some "Dan") (Some "Maths") false) d1
        = (inr (MessageBody "Staff updated", 200%Z), d2)
      ∧ without_clock <$> staffs d2 = without_clock <$> staffs d1
      ∧ monthly_schedule d2 = monthly_schedule sample_table.
Proof.
  split_and!; [reflexivity|reflexivity|reflexivity|].
  apply (add_or_update_staff_twice sample_clock sample_clock
           (StaffRequest (Some "D") (Some "Dan") (Some "Maths") false)
           sample_table "D" "Dan" "Maths"); reflexivity.
Defined.

(** ** The plan in the answer *)

Lemma entries_for_app m ids k1 k2 :
  entries_for m ids (k1 ++ k2)
  = entries_for m ids k1 ++ entries_for m (drop (length k1) ids) k2.
Proof. apply zip_with_app_drop. Qed.

Lemma entries_for_nil m ids slots :
  slots ≠ [] → (entries_for m ids slots = [] ↔ ids = []).
Proof.
  intros Hs. destruct ids as [|sid ids], slots as [|slot slots]; try done.
Qed.

Section mapping_plan.
Variables (assignments : list string) (staff_map : list (string * staff))
          (month_date : string).
Hypothesis assigned_known : Forall (λ sid, sid ∈ staff_map.*1) assignments.

Lemma seat_loop_entries n day g st d st' d' :
  seat_loop assignments staff_map month_date n day g st d = (inr st', d') →
  day_list st'
  = day_list st
    ++ entries_for staff_map (drop (idx st) assignments) (replicate n (day, g)).
Proof.
  revert st d. induction n as [|n IH]; intros st d; simpl.
  - intros [= <- _]. unfold entries_for.
    by rewrite zip_with_nil_r, app_nil_r.
  - case_decide as Hshort.
    + intros [= <- _]. simpl. rewrite drop_ge by done.
      by rewrite app_nil_r.
    + rewrite M_bind_unfold. unfold py_index.
      destruct (assignments !! idx st) as [sid|] eqn:Hsid; [|done]. simpl.
      rewrite M_bind_unfold. unfold py_getitem.
      destruct (Py.dict_get sid staff_map) as [s|] eqn:Hs; [|done]. simpl.
      rewrite M_bind_unfold. simpl. intros Hrun. apply IH in Hrun.
      rewrite Hrun. simpl. rewrite (drop_S _ _ _ Hsid).
      unfold entries_for, name_in. simpl. rewrite Hs. simpl.
      by rewrite <-app_assoc.
Qed.

Lemma gate_loop_entries gs day st d st' d' :
  idx st ≤ length assignments →
  gate_loop assignments staff_map month_date gs day st d = (inr st', d') →
  day_list st'
  = day_list st
    ++ entries_for staff_map (drop (idx st) assignments)
         (g ← gs; replicate 2 (day, g)).
Proof using assigned_known.
  revert st d. induction gs as [|g gs IH]; intros st d Hidx.
  - intros [= <- _]. unfold entries_for. simpl.
    by rewrite zip_with_nil_r, app_nil_r.
  - cbn [gate_loop]. rewrite M_bind_unfold.
    destruct (seat_loop_fills assignments staff_map month_date
                assigned_known 2 day g st d Hidx)
      as (st1 & c1 & Hrun1 & Hi1 & _).
    rewrite Hrun1. intros Hrun. apply IH in Hrun; [|lia].
    rewrite Hrun, (seat_loop_entries _ _ _ _ _ _ _ Hrun1).
    rewrite bind_cons, entries_for_app, !length_replicate, Hi1.
    by rewrite drop_min, drop_drop, <-app_assoc.
Qed.

(** The dictionary [scheduled_days] after the mapping. *)
Lemma day_loop_plan days k i short scheduled d sch' short' d' :
  i ≤ length assignments →
  drop i assignments = drop (6 * k) assignments →
  NoDup (scheduled.*1 ++ days) →
  day_loop assignments staff_map month_date days i short scheduled d
  = (inr (sch', short'), d') →
  sch'
  = scheduled
    ++ filter (λ p, p.2 ≠ [])
         (imap (λ j day,
                  (day, entries_for staff_map (drop (6 * (k + j)) assignments)
                          (slots_of_day day)))
            days).
Proof using assigned_known.
  revert k i short scheduled d.
  induction days as [|day days IH]; intros k i short scheduled d Hi Hk Hnd.
  - intros [= <- _ _]. by rewrite app_nil_r.
  - cbn [day_loop]. rewrite M_bind_unfold.
    destruct (gate_loop_fills assignments staff_map month_date
                assigned_known gates day (Locals i short []) d Hi)
      as (st & c & Hrun1 & Hi1 & _).
    pose proof (gate_loop_entries gates day (Locals i short []) d st _
                  Hi Hrun1) as Hes.
    fold (slots_of_day day) in *. rewrite slots_of_day_length in Hi1.
    cbn [idx day_list app] in *.
    rewrite Hrun1. intros Hrun.
    apply (IH (S k)) in Hrun; [|lia| |].
    + rewrite Hrun. rewrite imap_cons, filter_cons. cbn [snd].
      rewrite Nat.add_0_r, <-Hk, <-Hes.
      assert (imap ((λ j day0,
                       (day0,
                        entries_for staff_map (drop (6 * (k + j)) assignments)
                          (slots_of_day day0))) ∘ S) days
              = imap (λ j day0,
                        (day0,
                         entries_for staff_map
                           (drop (6 * (S k + j)) assignments)
                           (slots_of_day day0))) days) as ->.
      { apply imap_ext. intros j day0 _. simpl.
        by replace (k + S j) with (S (k + j)) by lia. }
      destruct (day_list st) as [|e es] eqn:Hdl.
      * by rewrite decide_False by (by intros []).
      * rewrite decide_True by done. rewrite dict_set_fresh.
        -- by rewrite <-app_assoc.
        -- apply NoDup_app in Hnd as (_ & Hnd & _). intros Hin.
           apply (Hnd _ Hin). left.
    + rewrite Hi1, drop_min, <-drop_drop, Hk, drop_drop. f_equal. lia.
    + destruct (day_list st) as [|e es].
      * apply NoDup_app in Hnd as (H1 & H2 & H3).
        apply NoDup_cons in H3 as [_ H3].
        apply NoDup_app. split_and!; [done| |done].
        intros x Hx Hin. apply (H2 x Hx). by right.
      * rewrite dict_set_fresh.
        -- rewrite fmap_app. csimpl. rewrite <-app_assoc. done.
        -- apply NoDup_app in Hnd as (_ & Hnd & _). intros Hin.
           apply (Hnd _ Hin). left.
Qed.
End mapping_plan.

Lemma NoDup_weekdays : NoDup weekdays.
Proof. by_compute. Qed.

(** The names a run reads are those of the fetch. *)
Lemma name_in_moved a (m0 m : list (string * staff)) sid :
  Forall2 (moved_by a) m0 m → name_in m sid = name_in m0 sid.
Proof.
  unfold name_in.
  induction 1 as [|[k0 s0] [k s] m0 m (Hk & _ & _ & _ & Hn) _ IH];
    simpl; [done|].
  simpl in Hk, Hn. subst k0. case_decide; [|done]. simpl. by rewrite Hn.
Qed.

Lemma entries_for_ext m1 m2 ids slots :
  (∀ sid, name_in m1 sid = name_in m2 sid) →
  entries_for m1 ids slots = entries_for m2 ids slots.
Proof.
  intros Hn. unfold entries_for. revert slots.
  induction ids as [|sid ids IH]; intros [|slot slots]; simpl; try done.
  by rewrite Hn, IH.
Qed.

(** The answer of a run, with its plan. *)
Lemma schedule_staff_plan utcnow month_input month_date data d :
  ∃ short,
    schedule_staff utcnow month_input month_date data d
    = (inr (ScheduleBody month_input
              (plan_for (staff_map_of data) (assignments_of data))
              (Py.list_set short), 200%Z),
       Db (written_row utcnow month_date 0 (final_map_of data).*2 <$> staffs d)
          (monthly_schedule d
           ++ rows_for month_date (assignments_of data) slot_layout))
    ∧ ∀ x, x ∈ short ↔
           ∃ j, weekdays !! j = Some x
                ∧ length (assignments_of data) < 6 * (j + 1).
Proof.
  destruct (schedule_staff_run utcnow month_input month_date data d)
    as (scheduled & short & Hrun & Hshort).
  exists short. split; [|done]. rewrite Hrun. do 4 f_equal.
  pose proof (final_map_keys data) as Hkeys.
  pose proof (final_map_wf data) as Hwf.
  pose proof (consume_assigned_keys TOTAL_SLOTS _ (staff_map_of_wf data))
    as Hknown.
  pose proof (consume_moved TOTAL_SLOTS _ (staff_map_of_wf data)) as Hmv.
  unfold schedule_staff, plan_for, assignments_of, final_map_of in *.
  destruct (consume TOTAL_SLOTS (staff_map_of data) []) as [a m].
  cbn [fst snd] in *. rewrite <-Hkeys in Hknown.
  rewrite M_bind_unfold in Hrun.
  destruct (day_loop a m month_date weekdays 0 [] [] d)
    as [[e|[sch short']] d1] eqn:Hloop; [done|].
  rewrite M_bind_unfold in Hrun.
  rewrite persist_run in Hrun by (by rewrite wf_map_ids; [apply Hwf|]).
  injection Hrun as <- _ _.
  apply (day_loop_plan a m month_date Hknown weekdays 0) in Hloop;
    [|lia|done|apply NoDup_weekdays].
  rewrite Hloop, app_nil_l. f_equal. apply imap_ext. intros j day _.
  cbn [Nat.add]. f_equal. apply entries_for_ext. intros sid.
  by eapply name_in_moved.
Qed.

Lemma dict_get_elem {V} k (v : V) (d : list (string * V)) :
  (k, v) ∈ d → NoDup d.*1 → Py.dict_get k d = Some v.
Proof.
  induction d as [|[k' v'] d IH]; csimpl.
  - by intros ?%elem_of_nil.
  - intros [[= <- <-]|Hin]%elem_of_cons [Hk Hd]%NoDup_cons.
    + by rewrite decide_True.
    + rewrite decide_False; [by apply IH|].
      intros ->. apply Hk. apply list_elem_of_fmap. by exists (k, v).
Qed.

Lemma concat_filter_nonempty {K A} (l : list (K * list A)) :
  concat (filter (λ p, p.2 ≠ []) l).*2 = concat l.*2.
Proof.
  induction l as [|[k es] l IH]; csimpl; [done|].
  rewrite filter_cons. simpl. destruct es as [|e es].
  - by rewrite decide_False by (by intros []).
  - rewrite decide_True by done. csimpl. by rewrite IH.
Qed.

Lemma concat_day_entries m ids k days :
  concat (imap (λ j day,
                  (day, entries_for m (drop (6 * (k + j)) ids)
                          (slots_of_day day)))
            days).*2
  = entries_for m (drop (6 * k) ids) (day ← days; slots_of_day day).
Proof.
  revert k. induction days as [|day days IH]; intros k.
  - unfold entries_for. simpl. by rewrite zip_with_nil_r.
  - rewrite imap_cons, bind_cons, entries_for_app, slots_of_day_length.
    rewrite fmap_cons, concat_cons. cbn [snd].
    rewrite Nat.add_0_r. f_equal. rewrite drop_drop.
    replace (6 * k + 6) with (6 * S k) by lia. rewrite <-IH.
    do 2 f_equal. apply imap_ext. intros j day0 _. unfold compose.
    by replace (k + S j) with (S k + j) by lia.
Qed.

Lemma imap_keys {A B} (g : nat → A → B) (l : list A) :
  (imap (λ j x, (x, g j x)) l).*1 = l.
Proof.
  revert g. induction l as [|x l IH]; intros g; [done|].
  rewrite imap_cons. csimpl. f_equal. apply (IH (g ∘ S)).
Qed.

(** X4. The plan of the answer is the assignment list laid on the slots
    in layout order: put end to end, the day lists are the assignments
    with the names of the fetch on the gates of the layout; the days
    listed are, each once, those with a filled slot (the [j]-th weekday
    when more than [6 * j] assignments were made); the name beside an id
    is the [staff_name] of the fetched row with that id. *)
Theorem plan_of_a_run utcnow month_input month_date data d :
  ∃ scheduled shortage d',
    schedule_staff utcnow month_input month_date data d
    = (inr (ScheduleBody month_input scheduled shortage, 200%Z), d')
    ∧ scheduled = plan_for (staff_map_of data) (assignments_of data)
    ∧ concat scheduled.*2
      = entries_for (staff_map_of data) (assignments_of data) slot_layout
    ∧ NoDup scheduled.*1
    ∧ (∀ j day,
         weekdays !! j = Some day →
         (day ∈ scheduled.*1 ↔ 6 * j < length (assignments_of data)))
    ∧ (NoDup (staff_id <$> data) →
       ∀ s, s ∈ data → name_in (staff_map_of data) (staff_id s) = staff_name s).
Proof.
  destruct (schedule_staff_plan utcnow month_input month_date data d)
    as (short & Hrun & _).
  eexists _, _, _. split; [exact Hrun|]. split; [done|].
  unfold plan_for. split_and!.
  - rewrite concat_filter_nonempty.
    rewrite (concat_day_entries _ _ 0 weekdays). by rewrite drop_0.
  - apply NoDup_fmap_filter. rewrite imap_keys. apply NoDup_weekdays.
  - intros j day Hj. rewrite list_elem_of_fmap. split.
    + intros ([day' es] & -> & [Hne Hin]%list_elem_of_filter).
      apply elem_of_lookup_imap in Hin as (j' & day'' & [= -> ->] & Hj').
      simpl in *.
      assert (j' = j) as ->
        by (eapply NoDup_lookup; [apply NoDup_weekdays|done|done]).
      destruct (decide (6 * j < length (assignments_of data))); [done|].
      exfalso. apply Hne. rewrite drop_ge by lia. done.
    + intros Hlt. eexists. split; [|apply list_elem_of_filter; split;
        [|apply elem_of_lookup_imap; eexists j, day; split; [done|exact Hj]]].
      * done.
      * simpl. rewrite entries_for_nil by done.
        intros Hd%(f_equal length). rewrite length_drop in Hd.
        simpl in Hd. lia.
  - intros Hnd s Hs. unfold name_in.
    rewrite (dict_get_elem _ s); [done| |apply staff_map_of_wf].
    rewrite staff_map_of_NoDup by done.
    apply list_elem_of_fmap. by exists s.
Qed.

Lemma plan_of_a_run_witness :
  NoDup (staff_id <$> [sample "A" 0; sample "B" 2])
  ∧ ∃ scheduled shortage d',
      schedule_staff sample_clock "2024-05" "2024-05-01"
        [sample "A" 0; sample "B" 2] (Db [] [])
      = (inr (ScheduleBody "2024-05" scheduled shortage, 200%Z), d')
      ∧ scheduled = plan_for (staff_map_of [sample "A" 0; sample "B" 2])
                      (assignments_of [sample "A" 0; sample "B" 2])
      ∧ concat scheduled.*2
        = entries_for (staff_map_of [sample "A" 0; sample "B" 2])
            (assignments_of [sample "A" 0; sample "B" 2]) slot_layout
      ∧ NoDup scheduled.*1
      ∧ (∀ j day,
           weekdays !! j = Some day →
           (day ∈ scheduled.*1
            ↔ 6 * j < length (assignments_of [sample "A" 0; sample "B" 2])))
      ∧ (NoDup (staff_id <$> [sample "A" 0; sample "B" 2]) →
         ∀ s, s ∈ [sample "A" 0; sample "B" 2] →
              name_in (staff_map_of [sample "A" 0; sample "B" 2]) (staff_id s)
              = staff_name s).
Proof.
  split; [by_compute|].
  apply (plan_of_a_run sample_clock "2024-05" "2024-05-01"
           [sample "A" 0; sample "B" 2] (Db [] [])).
Defined.

(** ** More on the consumption loop *)

Lemma counters_total_app l1 l2 :
  counters_total (l1 ++ l2) = (counters_total l1 + counters_total l2)%Z.
Proof.
  unfold counters_total. induction l1 as [|s l1 IH]; simpl; [done|].
  rewrite IH. lia.
Qed.

Lemma consume_total n m :
  wf_map m →
  counters_total (consume n m []).2.*2
  = (counters_total m.*2 + Z.of_nat (length (consume n m []).1))%Z.
Proof.
  revert m. induction n as [|n IH]; intros m Hm.
  - simpl. lia.
  - rewrite consume_S.
    destruct (loop_body m) as [[sid m']|] eqn:Hb; [|simpl; lia].
    cbn [fst snd length]. rewrite IH by eauto using loop_body_wf.
    destruct (loop_body_Some _ _ _ (proj1 Hm) Hb)
      as (l1 & k & s & l2 & -> & _ & _ & _ & _ & ->).
    rewrite !fmap_app, !fmap_cons, !counters_total_app.
    unfold counters_total. simpl. lia.
Qed.

(** A run that stops before its last slot stopped at the [break]. *)
Lemma consume_short n m :
  length (consume n m []).1 < n → loop_body (consume n m []).2 = None.
Proof.
  revert m. induction n as [|n IH]; intros m; [simpl; lia|].
  rewrite consume_S.
  destruct (loop_body m) as [[sid m']|] eqn:Hb; [|done].
  cbn [fst snd length]. intros Hlt. apply IH. lia.
Qed.

Lemma consume_exhausted n m :
  Forall (λ e, CEILING ≤ priority_count e.2)%Z m → consume n m [] = ([], m).
Proof.
  intros Hm%loop_body_None. destruct n; [done|]. by rewrite consume_S, Hm.
Qed.

(** X5. Over a run the counters only grow, and their sum grows by the
    number of assignments made. *)
Theorem counters_grow_by_assignments data :
  counters_total (final_map_of data).*2
  = (counters_total (staff_map_of data).*2
     + Z.of_nat (length (assignments_of data)))%Z
  ∧ Forall2 (λ e0 e, e.1 = e0.1 ∧ (priority_count e0.2 ≤ priority_count e.2)%Z)
      (staff_map_of data) (final_map_of data).
Proof.
  split.
  - apply consume_total, staff_map_of_wf.
  - pose proof (consume_moved TOTAL_SLOTS _ (staff_map_of_wf data)) as Hmv.
    eapply Forall2_impl; [exact Hmv|].
    intros e0 e (? & ? & _). split; [done|lia].
Qed.

(** X6. The answer names a day short exactly when the run made fewer
    than 36 assignments, and then every eligible staff member ended at
    the ceiling or above: slots stay unfilled only for want of staff
    under the ceiling. *)
Theorem shortage_only_when_exhausted utcnow month_input month_date data d :
  ∃ scheduled shortage d',
    schedule_staff utcnow month_input month_date data d
    = (inr (ScheduleBody month_input scheduled shortage, 200%Z), d')
    ∧ (shortage ≠ [] ↔ length (assignments_of data) < TOTAL_SLOTS)
    ∧ (shortage ≠ [] →
       Forall (λ e, CEILING ≤ priority_count e.2)%Z (final_map_of data)).
Proof.
  destruct (schedule_staff_run utcnow month_input month_date data d)
    as (scheduled & short & Hrun & Hshort).
  destruct (list_set_spec short) as [_ Hset].
  assert (Py.list_set short ≠ [] ↔ length (assignments_of data) < TOTAL_SLOTS)
    as Hiff.
  { split.
    - intros Hne. destruct (Py.list_set short) as [|x l] eqn:Hl; [done|].
      assert (x ∈ short) as Hx by (apply Hset; rewrite ?Hl; left).
      apply Hshort in Hx as (j & Hj & Hlt).
      apply lookup_lt_Some in Hj. simpl in Hj. unfold TOTAL_SLOTS. simpl. lia.
    - intros Hlt Hnil.
      assert ("Saturday" ∈ Py.list_set short) as Hin.
      { apply Hset, Hshort. exists 5. split; [done|].
        unfold TOTAL_SLOTS in Hlt. simpl in *. lia. }
      rewrite Hnil in Hin. by apply elem_of_nil in Hin. }
  eexists _, _, _. split_and!; [exact Hrun|exact Hiff|].
  intros Hne%Hiff. apply loop_body_None. by apply consume_short.
Qed.

(** X7. When a run ends, the counter of a staff member it assigned is at
    most 1 above the counter of any eligible staff member, assigned or
    not: nobody is assigned while somebody else is lower. *)
Theorem assigned_near_least data e f :
  e ∈ final_map_of data → f ∈ final_map_of data →
  e.1 ∈ assignments_of data →
  (priority_count e.2 ≤ priority_count f.2 + 1)%Z.
Proof.
  intros He Hf Ha.
  destruct (lower_bound_exists (staff_map_of data)) as [μ Hlo].
  destruct (consume_level TOTAL_SLOTS (staff_map_of data) [] μ
              (staff_map_of_wf data) Hlo) as (μ' & Hall & Hass).
  { eapply Forall_impl; [exact Hlo|]. simpl. by intros ? _ ?%elem_of_nil. }
  fold (final_map_of data) (assignments_of data) in *.
  rewrite Forall_forall in Hall, Hass.
  specialize (Hall f Hf). specialize (Hass e He (or_intror Ha)). lia.
Qed.

Lemma assigned_near_least_witness :
  ("A", Staff "A" "Name of A" "Dept" false 3 None None)
  ∈ final_map_of [sample "A" 0; sample "B" 2; sample "C" 5]
  ∧ ("B", Staff "B" "Name of B" "Dept" false 3 None None)
    ∈ final_map_of [sample "A" 0; sample "B" 2; sample "C" 5]
  ∧ "A" ∈ assignments_of [sample "A" 0; sample "B" 2; sample "C" 5]
  ∧ (3 ≤ 3 + 1)%Z.
Proof.
  assert (("A", Staff "A" "Name of A" "Dept" false 3 None None)
          ∈ final_map_of [sample "A" 0; sample "B" 2; sample "C" 5])
    as He by (vm_compute; left).
  assert (("B", Staff "B" "Name of B" "Dept" false 3 None None)
          ∈ final_map_of [sample "A" 0; sample "B" 2; sample "C" 5])
    as Hf by (vm_compute; right; left).
  assert ("A" ∈ assignments_of [sample "A" 0; sample "B" 2; sample "C" 5])
    as Ha by (vm_compute; left).
  split_and!; [exact He|exact Hf|exact Ha|].
  exact (assigned_near_least [sample "A" 0; sample "B" 2; sample "C" 5]
           _ _ He Hf Ha).
Defined.

(** ** Runs against the tables *)

(** The ids [staff_map] holds are ids of fetched rows. *)
Lemma staff_map_of_key data k :
  k ∈ (staff_map_of data).*1 → ∃ s, s ∈ data ∧ staff_id s = k.
Proof.
  intros ([k' s] & -> & Hin)%list_elem_of_fmap.
  pose proof (staff_map_of_wf data) as [_ Hid].
  assert (Forall (λ e : string * staff, e.2 ∈ data) (staff_map_of data))
    as Hdata
    by (apply (staff_map_of_Forall (λ s, s ∈ data)), Forall_forall; auto).
  rewrite Forall_forall in Hid, Hdata.
  exists s. split.
  - apply (Hdata (k', s) Hin).
  - symmetry. apply (Hid (k', s) Hin).
Qed.

Lemma assignments_of_fetched data sid :
  sid ∈ assignments_of data → ∃ s, s ∈ data ∧ staff_id s = sid.
Proof.
  intros Hin. apply staff_map_of_key.
  pose proof (consume_assigned_keys TOTAL_SLOTS _ (staff_map_of_wf data))
    as Hkeys.
  rewrite Forall_forall in Hkeys. by apply Hkeys.
Qed.

Lemma elem_of_rows_for md ids slots row :
  row ∈ rows_for md ids slots →
  row_month row = md ∧ row_staff_id row ∈ ids
  ∧ (row_weekday row, row_gate row) ∈ slots.
Proof.
  unfold rows_for.
  intros (i & sid & [day g] & Hrow & Hsid & Hslot)%elem_of_lookup_zip_with.
  subst row. simpl. split_and!; [done| |]; by eapply list_elem_of_lookup_2.
Qed.

Lemma rows_for_length md ids slots :
  length (rows_for md ids slots) = length ids `min` length slots.
Proof. unfold rows_for. apply length_zip_with. Qed.

(** A row of the table after the write-back of a run. *)
Lemma written_row_table utcnow md d r :
  NoDup (staff_id <$> staffs d) → r ∈ staffs d →
  (busy_9_10 r = true →
   written_row utcnow md 0 (final_map_of (Supabase.free_staff d)).*2 r = r)
  ∧ (busy_9_10 r = false →
     ∃ j e,
       final_map_of (Supabase.free_staff d) !! j = Some e
       ∧ e.1 = staff_id r
       ∧ priority_count e.2
         = (priority_count r
            + Z.of_nat (times_assigned (staff_id r)
                          (assignments_of (Supabase.free_staff d))))%Z
       ∧ written_row utcnow md 0 (final_map_of (Supabase.free_staff d)).*2 r
         = Staff (staff_id r) (staff_name r) (department r) (busy_9_10 r)
             (priority_count e.2) (Some md) (Some (utcnow j))).
Proof.
  intros Hnd Hr. set (data := Supabase.free_staff d).
  pose proof (free_staff_NoDup d Hnd) as Hdata. fold data in Hdata.
  pose proof (final_map_wf data) as Hwf.
  assert (staff_id <$> (final_map_of data).*2 = staff_id <$> data) as Hids.
  { by rewrite (wf_map_ids _ Hwf), final_map_keys, staff_map_of_keys. }
  split; intros Hbusy.
  - apply written_row_notin. rewrite Hids.
    intros (s & Hid & [Hfree Hs]%elem_of_free_staff)%list_elem_of_fmap.
    pose proof (NoDup_fmap_elem_inj staff_id _ r s Hnd Hr Hs Hid).
    congruence.
  - assert (r ∈ data) as [j Hj]%list_elem_of_lookup
      by (by apply elem_of_free_staff).
    pose proof (consume_moved TOTAL_SLOTS _ (staff_map_of_wf data)) as Hmv.
    fold (assignments_of data) (final_map_of data) in Hmv.
    assert (staff_map_of data !! j = Some (staff_id r, r)) as Hj0.
    { rewrite staff_map_of_NoDup by done.
      by rewrite list_lookup_fmap, Hj. }
    destruct (Forall2_lookup_l _ _ _ _ _ Hmv Hj0)
      as ([k s] & Hjf & Hk & Hpc & _ & Hid & _).
    simpl in Hk, Hpc, Hid. exists j, (k, s). split_and!; try done.
    rewrite (written_row_at _ _ _ _ _ j s); [done| | |done].
    + by rewrite Hids.
    + by rewrite list_lookup_fmap, Hjf.
Qed.

(** X8. The rows a run adds to the schedule carry the month of the run, a
    slot of the layout and the id of a row of [staffs] that is not busy;
    with unique ids, no busy staff member is on any of them. *)
Theorem busy_staff_never_assigned utcnow month d :
  month ≠ "" →
  ∃ scheduled shortage rows d',
    generate_monthly_schedule utcnow (ScheduleRequest (Some month)) d
    = (inr (ScheduleBody month scheduled shortage, 200%Z), d')
    ∧ monthly_schedule d' = monthly_schedule d ++ rows
    ∧ Forall (λ row,
                row_month row = month +:+ "-01"
                ∧ (row_weekday row, row_gate row) ∈ slot_layout
                ∧ ∃ r, r ∈ staffs d ∧ busy_9_10 r = false
                       ∧ staff_id r = row_staff_id row) rows
    ∧ (NoDup (staff_id <$> staffs d) →
       ∀ r, r ∈ staffs d → busy_9_10 r = true →
            staff_id r ∉ row_staff_id <$> rows).
Proof.
  intros Hmonth.
  destruct (generate_monthly_schedule_run utcnow month d Hmonth)
    as (scheduled & short & Hrun & _).
  assert (Forall (λ row,
                    row_month row = month +:+ "-01"
                    ∧ (row_weekday row, row_gate row) ∈ slot_layout
                    ∧ ∃ r, r ∈ staffs d ∧ busy_9_10 r = false
                           ∧ staff_id r = row_staff_id row)
            (rows_for (month +:+ "-01")
               (assignments_of (Supabase.free_staff d)) slot_layout))
    as Hrows.
  { apply Forall_forall. intros row (Hm & Hid & Hslot)%elem_of_rows_for.
    split_and!; [done|done|].
    apply assignments_of_fetched in Hid
      as (s & [Hfree Hs]%elem_of_free_staff & Hid).
    by exists s. }
  eexists _, _, _, _. split_and!; [exact Hrun|done|exact Hrows|].
  intros Hnd r Hr Hbusy (row & Hid & Hrow)%list_elem_of_fmap.
  rewrite Forall_forall in Hrows.
  destruct (Hrows row Hrow) as (_ & _ & s & Hs & Hfree & Hids).
  assert (r = s)
    by (apply (NoDup_fmap_elem_inj staff_id _ r s Hnd Hr Hs); congruence).
  congruence.
Qed.

Lemma busy_staff_never_assigned_witness :
  "2024-05" ≠ ""
  ∧ ∃ scheduled shortage rows d',
      generate_monthly_schedule sample_clock
        (ScheduleRequest (Some "2024-05")) sample_table
      = (inr (ScheduleBody "2024-05" scheduled shortage, 200%Z), d')
      ∧ monthly_schedule d' = monthly_schedule sample_table ++ rows
      ∧ Forall (λ row,
                  row_month row = "2024-05" +:+ "-01"
                  ∧ (row_weekday row, row_gate row) ∈ slot_layout
                  ∧ ∃ r, r ∈ staffs sample_table ∧ busy_9_10 r = false
                         ∧ staff_id r = row_staff_id row) rows
      ∧ (NoDup (staff_id <$> staffs sample_table) →
         ∀ r, r ∈ staffs sample_table → busy_9_10 r = true →
              staff_id r ∉ row_staff_id <$> rows).
Proof.
  assert ("2024-05" ≠ "") as Hm by discriminate.
  split; [exact Hm|].
  apply (busy_staff_never_assigned sample_clock "2024-05" sample_table Hm).
Defined.

Lemma written_row_busy utcnow md i values r :
  busy_9_10 (written_row utcnow md i values r) = busy_9_10 r.
Proof.
  revert i. induction values as [|s rest IH]; intros i; simpl; [done|].
  case_decide; [done|apply IH].
Qed.

Lemma short_days_nonempty short n :
  (∀ x, x ∈ short ↔ ∃ j, weekdays !! j = Some x ∧ n < 6 * (j + 1)) →
  Py.list_set short ≠ [] → n < TOTAL_SLOTS.
Proof.
  intros Hshort Hne. destruct (list_set_spec short) as [_ Hset].
  destruct (Py.list_set short) as [|x l]; [done|].
  assert (x ∈ short) as Hx by (apply Hset; left).
  apply Hshort in Hx as (j & Hj & Hlt).
  apply lookup_lt_Some in Hj. simpl in Hj. unfold TOTAL_SLOTS. simpl. lia.
Qed.

(** A run over staff who are all at the ceiling or above. *)
Lemma generate_exhausted_run utcnow month d :
  month ≠ "" →
  Forall (λ r, busy_9_10 r = false → CEILING ≤ priority_count r)%Z (staffs d) →
  assignments_of (Supabase.free_staff d) = []
  ∧ ∃ shortage,
      generate_monthly_schedule utcnow (ScheduleRequest (Some month)) d
      = (inr (ScheduleBody month [] shortage, 200%Z),
         Db (written_row utcnow (month +:+ "-01") 0
               (final_map_of (Supabase.free_staff d)).*2 <$> staffs d)
            (monthly_schedule d))
      ∧ shortage ≡ₚ weekdays.
Proof.
  intros Hmonth Hall.
  assert (assignments_of (Supabase.free_staff d) = []) as Ha.
  { unfold assignments_of. rewrite consume_exhausted; [done|].
    apply (staff_map_of_Forall (λ s, CEILING ≤ priority_count s)%Z).
    apply Forall_forall. intros s [Hfree Hs]%elem_of_free_staff.
    rewrite Forall_forall in Hall. by apply Hall. }
  split; [exact Ha|].
  unfold generate_monthly_schedule. simpl. rewrite decide_False by done.
  rewrite M_bind_unfold. unfold Supabase.select_free_staff.
  destruct (schedule_staff_plan utcnow month (month +:+ "-01")
              (Supabase.free_staff d) d) as (short & -> & Hshort).
  rewrite Ha in *. destruct (list_set_spec short) as [Hnd Hset].
  exists (Py.list_set short). split.
  - unfold rows_for. simpl. by rewrite app_nil_r.
  - apply NoDup_Permutation; [done|apply NoDup_weekdays|].
    intros x. rewrite Hset, Hshort. split.
    + intros (j & Hj & _). by eapply list_elem_of_lookup_2.
    + intros [j Hj]%list_elem_of_lookup. exists j. split; [done|simpl; lia].
Qed.

(** X9. When every staff member who is not busy is at the ceiling or
    above, and so when there is none, a run assigns nobody: the plan is
    empty, all six weekdays are short, no row is added to the schedule,
    and (ids being unique) no counter changes. *)
Theorem no_assignment_at_the_ceiling utcnow month d :
  month ≠ "" →
  NoDup (staff_id <$> staffs d) →
  Forall (λ r, busy_9_10 r = false → CEILING ≤ priority_count r)%Z (staffs d) →
  ∃ shortage d',
    generate_monthly_schedule utcnow (ScheduleRequest (Some month)) d
    = (inr (ScheduleBody month [] shortage, 200%Z), d')
    ∧ shortage ≡ₚ weekdays
    ∧ monthly_schedule d' = monthly_schedule d
    ∧ priority_count <$> staffs d' = priority_count <$> staffs d.
Proof.
  intros Hmonth Hnd Hall.
  destruct (generate_exhausted_run utcnow month d Hmonth Hall)
    as (Ha & shortage & Hrun & Hperm).
  eexists _, _. split_and!; [exact Hrun|done|done|].
  cbn [staffs]. rewrite <-list_fmap_compose. apply list_fmap_ext.
  intros i r Hi. simpl.
  destruct (written_row_table utcnow (month +:+ "-01") d r Hnd
              (list_elem_of_lookup_2 _ _ _ Hi)) as [Hbusy Hfree].
  destruct (busy_9_10 r) eqn:Hb.
  - by rewrite Hbusy.
  - destruct (Hfree eq_refl) as (j & e & _ & _ & Hpc & ->).
    simpl. rewrite Hpc, Ha. unfold times_assigned. simpl. lia.
Qed.

Lemma no_assignment_at_the_ceiling_witness :
  "2024-05" ≠ ""
  ∧ NoDup (staff_id <$> staffs (Db [sample "A" 3; sample "B" 4] []))
  ∧ Forall (λ r, busy_9_10 r = false → CEILING ≤ priority_count r)%Z
      (staffs (Db [sample "A" 3; sample "B" 4] []))
  ∧ ∃ shortage d',
      generate_monthly_schedule sample_clock
        (ScheduleRequest (Some "2024-05")) (Db [sample "A" 3; sample "B" 4] [])
      = (inr (ScheduleBody "2024-05" [] shortage, 200%Z), d')
      ∧ shortage ≡ₚ weekdays
      ∧ monthly_schedule d'
        = monthly_schedule (Db [sample "A" 3; sample "B" 4] [])
      ∧ priority_count <$> staffs d'
        = priority_count <$> staffs (Db [sample "A" 3; sample "B" 4] []).
Proof.
  assert ("2024-05" ≠ "") as Hm by discriminate.
  assert (NoDup (staff_id <$> staffs (Db [sample "A" 3; sample "B" 4] [])))
    as Hnd by by_compute.
  assert (Forall (λ r, busy_9_10 r = false → CEILING ≤ priority_count r)%Z
            (staffs (Db [sample "A" 3; sample "B" 4] [])))
    as Hall by (repeat constructor; unfold CEILING; simpl; lia).
  split_and!; [exact Hm|exact Hnd|exact Hall|].
  apply (no_assignment_at_the_ceiling sample_clock "2024-05"
           (Db [sample "A" 3; sample "B" 4] []) Hm Hnd Hall).
Defined.

(** X10. Once a run has answered with a day short, the next run, for
    whatever month, assigns nobody and adds no row: every staff member
    who is not busy was left at the ceiling or above, and only
    [reset_priority] lowers a counter. *)
Theorem shortage_persists utcnow1 utcnow2 month1 month2 d
    scheduled shortage d1 :
  month1 ≠ "" → month2 ≠ "" →
  NoDup (staff_id <$> staffs d) →
  generate_monthly_schedule utcnow1 (ScheduleRequest (Some month1)) d
  = (inr (ScheduleBody month1 scheduled shortage, 200%Z), d1) →
  shortage ≠ [] →
  Forall (λ r, busy_9_10 r = false → CEILING ≤ priority_count r)%Z (staffs d1)
  ∧ ∃ shortage2 d2,
      generate_monthly_schedule utcnow2 (ScheduleRequest (Some month2)) d1
      = (inr (ScheduleBody month2 [] shortage2, 200%Z), d2)
      ∧ shortage2 ≡ₚ weekdays
      ∧ monthly_schedule d2 = monthly_schedule d1.
Proof.
  intros Hm1 Hm2 Hnd Hrun Hne.
  destruct (generate_monthly_schedule_run utcnow1 month1 d Hm1)
    as (scheduled' & short & Hrun' & Hshort).
  rewrite Hrun in Hrun'. injection Hrun' as _ Hsho Hd1. subst shortage.
  apply (short_days_nonempty _ _ Hshort) in Hne.
  apply consume_short, loop_body_None in Hne.
  fold (final_map_of (Supabase.free_staff d)) in Hne.
  assert (Forall (λ r, busy_9_10 r = false → CEILING ≤ priority_count r)%Z
            (staffs d1)) as Hall.
  { rewrite Hd1. cbn [staffs].
    apply Forall_fmap, Forall_forall. intros r Hr. simpl.
    rewrite written_row_busy. intros Hfree.
    destruct (written_row_table utcnow1 (month1 +:+ "-01") d r Hnd Hr)
      as [_ Hw].
    destruct (Hw Hfree) as (j & e & Hj & _ & _ & ->). simpl.
    rewrite Forall_forall in Hne.
    apply (Hne e). by eapply list_elem_of_lookup_2. }
  split; [exact Hall|].
  destruct (generate_exhausted_run utcnow2 month2 d1 Hm2 Hall)
    as (_ & shortage2 & Hrun2 & Hperm).
  eexists _, _. split_and!; [exact Hrun2|done|done].
Qed.

Lemma shortage_persists_witness :
  "2024-05" ≠ "" ∧ "2024-06" ≠ ""
  ∧ NoDup (staff_id <$> staffs sample_table)
  ∧ ∃ scheduled shortage d1,
      generate_monthly_schedule sample_clock
        (ScheduleRequest (Some "2024-05")) sample_table
      = (inr (ScheduleBody "2024-05" scheduled shortage, 200%Z), d1)
      ∧ shortage ≠ []
      ∧ Forall (λ r, busy_9_10 r = false → CEILING ≤ priority_count r)%Z
          (staffs d1)
      ∧ ∃ shortage2 d2,
          generate_monthly_schedule sample_clock
            (ScheduleRequest (Some "2024-06")) d1
          = (inr (ScheduleBody "2024-06" [] shortage2, 200%Z), d2)
          ∧ shortage2 ≡ₚ weekdays
          ∧ monthly_schedule d2 = monthly_schedule d1.
Proof.
  assert ("2024-05" ≠ "") as Hm1 by discriminate.
  assert ("2024-06" ≠ "") as Hm2 by discriminate.
  assert (NoDup (staff_id <$> staffs sample_table)) as Hnd by by_compute.
  split_and!; [exact Hm1|exact Hm2|exact Hnd|].
  eexists _, _, _.
  split; [vm_compute; reflexivity|]. split; [discriminate|].
  eapply (shortage_persists sample_clock sample_clock "2024-05" "2024-06"
            sample_table _ _ _ Hm1 Hm2 Hnd).
  - vm_compute. reflexivity.
  - discriminate.
Defined.

Lemma times_assigned_pos sid l : 0 < times_assigned sid l → sid ∈ l.
Proof.
  intros Hpos. destruct (decide (sid ∈ l)) as [|Hout]; [done|].
  rewrite times_assigned_notin in Hpos by done. lia.
Qed.

Lemma capacity_fresh (l : list staff) :
  Forall (λ s, priority_count s = 0%Z) l →
  capacity ((λ s, (staff_id s, s)) <$> l) = (3 * Z.of_nat (length l))%Z.
Proof.
  unfold capacity, CEILING.
  induction 1 as [|s l Hs _ IH]; csimpl; [done|]. rewrite IH, Hs. lia.
Qed.

Lemma filter_free_length (f : staff → staff) (l : list staff) :
  (∀ s, busy_9_10 (f s) = busy_9_10 s) →
  length (filter (λ s, busy_9_10 s = false) (f <$> l))
  = length (filter (λ s, busy_9_10 s = false) l).
Proof.
  intros Hf. induction l as [|s l IH]; csimpl; [done|].
  rewrite !filter_cons, Hf. case_decide; simpl; by rewrite IH.
Qed.

(** X11. After a confirmed [reset_priority], a run makes 3 assignments
    for each staff member who is not busy, up to the 36 slots, and leaves
    the counters of those staff members at most 1 apart. Staff ids are
    unique in the table. *)
Theorem run_after_reset utcnow1 utcnow2 data month d :
  req_confirmation data = Some "CONFIRM" →
  month ≠ "" →
  NoDup (staff_id <$> staffs d) →
  ∃ d0 scheduled shortage rows d1,
    reset_priority utcnow1 data d
    = (inr (MessageBody "All staff priorities reset", 200%Z), d0)
    ∧ generate_monthly_schedule utcnow2 (ScheduleRequest (Some month)) d0
      = (inr (ScheduleBody month scheduled shortage, 200%Z), d1)
    ∧ monthly_schedule d1 = monthly_schedule d ++ rows
    ∧ length rows
      = 36 `min` (3 * length (filter (λ r, busy_9_10 r = false) (staffs d)))
    ∧ ∀ r1 r2,
        r1 ∈ staffs d1 → r2 ∈ staffs d1 →
        busy_9_10 r1 = false → busy_9_10 r2 = false →
        (priority_count r1 ≤ priority_count r2 + 1)%Z.
Proof.
  intros Hc Hmonth Hnd. unfold reset_priority. rewrite decide_True by done.
  rewrite M_bind_unfold. cbn [Supabase.update_all_staff].
  set (f := λ s, Staff (staff_id s) (staff_name s) (department s)
                   (busy_9_10 s) 0 None (Some (utcnow1 0))).
  set (d0 := Db (f <$> staffs d) (monthly_schedule d)).
  assert (NoDup (staff_id <$> staffs d0)) as Hnd0
    by (simpl; by rewrite <-list_fmap_compose).
  set (fetched := Supabase.free_staff d0).
  assert (Forall (λ s, priority_count s = 0%Z) fetched) as Hzero.
  { apply Forall_forall. intros s [_ Hs]%elem_of_free_staff.
    simpl in Hs. by apply list_elem_of_fmap in Hs as (r & -> & _). }
  pose proof (free_staff_NoDup d0 Hnd0) as Hfetched. fold fetched in Hfetched.
  assert (length fetched
          = length (filter (λ r, busy_9_10 r = false) (staffs d))) as Hk.
  { unfold fetched, Supabase.free_staff. rewrite sorted_length. simpl.
    by apply filter_free_length. }
  assert (length (assignments_of fetched) = 36 `min` (3 * length fetched))
    as Hlen.
  { pose proof (assignments_length fetched) as Hl.
    rewrite staff_map_of_NoDup, capacity_fresh in Hl by done.
    change TOTAL_SLOTS with 36 in Hl. lia. }
  destruct (generate_monthly_schedule_run utcnow2 month d0 Hmonth)
    as (scheduled & short & Hrun & _).
  fold fetched in Hrun.
  eexists d0, _, _, _, _. split_and!; [done|exact Hrun|done| |].
  - rewrite rows_for_length, slot_layout_length, Hlen, <-Hk.
    change TOTAL_SLOTS with 36. lia.
  - cbn [staffs].
    destruct (lower_bound_exists (staff_map_of fetched)) as [μ Hlo].
    destruct (consume_level TOTAL_SLOTS (staff_map_of fetched) [] μ
                (staff_map_of_wf fetched) Hlo) as (μ' & Hall & Hass).
    { eapply Forall_impl; [exact Hlo|]. simpl. by intros ? _ ?%elem_of_nil. }
    fold (final_map_of fetched) (assignments_of fetched) in *.
    rewrite Forall_forall in Hall. rewrite Forall_forall in Hass.
    rewrite Forall_forall in Hzero.
    intros r1 r2 (s1 & -> & Hs1)%list_elem_of_fmap
      (s2 & -> & Hs2)%list_elem_of_fmap.
    rewrite !written_row_busy. intros Hb1 Hb2.
    destruct (written_row_table utcnow2 (month +:+ "-01") d0 s1 Hnd0 Hs1)
      as [_ Hw1].
    destruct (written_row_table utcnow2 (month +:+ "-01") d0 s2 Hnd0 Hs2)
      as [_ Hw2].
    destruct (Hw1 Hb1) as (j1 & e1 & Hj1 & Hk1 & Hpc1 & Hr1).
    destruct (Hw2 Hb2) as (j2 & e2 & Hj2 & Hk2 & Hpc2 & Hr2).
    fold fetched in Hj1, Hj2, Hpc1, Hpc2, Hr1, Hr2.
    rewrite Hr1, Hr2. simpl.
    apply list_elem_of_lookup_2 in Hj1, Hj2.
    assert (priority_count s1 = 0%Z ∧ priority_count s2 = 0%Z) as [Hz1 Hz2].
    { split; apply Hzero, elem_of_free_staff; by split. }
    destruct (decide
                (0 < times_assigned (staff_id s1) (assignments_of fetched)))
      as [Hpos|Hnone].
    + apply times_assigned_pos in Hpos. rewrite <-Hk1 in Hpos.
      specialize (Hass e1 Hj1 (or_intror Hpos)).
      specialize (Hall e2 Hj2). lia.
    + lia.
Qed.

Lemma run_after_reset_witness :
  req_confirmation (ConfirmRequest (Some "CONFIRM") None) = Some "CONFIRM"
  ∧ "2024-05" ≠ ""
  ∧ NoDup (staff_id <$> staffs sample_table)
  ∧ ∃ d0 scheduled shortage rows d1,
      reset_priority sample_clock (ConfirmRequest (Some "CONFIRM") None)
        sample_table
      = (inr (MessageBody "All staff priorities reset", 200%Z), d0)
      ∧ generate_monthly_schedule sample_clock
          (ScheduleRequest (Some "2024-05")) d0
        = (inr (ScheduleBody "2024-05" scheduled shortage, 200%Z), d1)
      ∧ monthly_schedule d1 = monthly_schedule sample_table ++ rows
      ∧ length rows
        = 36 `min` (3 * length (filter (λ r, busy_9_10 r = false)
                                  (staffs sample_table)))
      ∧ ∀ r1 r2,
          r1 ∈ staffs d1 → r2 ∈ staffs d1 →
          busy_9_10 r1 = false → busy_9_10 r2 = false →
          (priority_count r1 ≤ priority_count r2 + 1)%Z.
Proof.
  assert ("2024-05" ≠ "") as Hm by discriminate.
  assert (NoDup (staff_id <$> staffs sample_table)) as Hnd by by_compute.
  split_and!; [reflexivity|exact Hm|exact Hnd|].
  apply (run_after_reset sample_clock sample_clock
           (ConfirmRequest (Some "CONFIRM") None) "2024-05" sample_table
           eq_refl Hm Hnd).
Defined.

(** ** Deleting and viewing a month *)

Lemma filter_filter_same {A} (P : A → Prop) `{!∀ x, Decision (P x)}
    (l : list A) :
  filter P (filter P l) = filter P l.
Proof.
  induction l as [|x l IH]; [done|]. rewrite filter_cons.
  case_decide; [|done]. rewrite filter_cons, decide_True by done.
  by rewrite IH.
Qed.

Lemma filter_all {A} (P : A → Prop) `{!∀ x, Decision (P x)} (l : list A) :
  Forall P l → filter P l = l.
Proof.
  induction 1 as [|x l Hx _ IH]; [done|].
  by rewrite filter_cons, decide_True, IH.
Qed.

Lemma filter_none {A} (P : A → Prop) `{!∀ x, Decision (P x)} (l : list A) :
  Forall (λ x, ¬ P x) l → filter P l = [].
Proof.
  induction 1 as [|x l Hx _ IH]; [done|].
  by rewrite filter_cons, decide_False, IH.
Qed.

Lemma rows_for_month md ids slots :
  Forall (λ row, row_month row = md) (rows_for md ids slots).
Proof.
  apply Forall_forall. by intros row (? & _)%elem_of_rows_for.
Qed.

(** X12. A confirmed [delete_month_schedule] with its month answers 200,
    removes from the schedule the rows of that month and no other, keeps
    the remaining rows in their order and the staff as they are; a second
    identical request changes nothing. *)
Theorem delete_month_schedule_removes data d month :
  req_confirmation data = Some "CONFIRM" →
  req_target_month data = Some month →
  ∃ d',
    delete_month_schedule data d
    = (inr (MessageBody (month +:+ " deleted"), 200%Z), d')
    ∧ staffs d' = staffs d
    ∧ (∀ row, row ∈ monthly_schedule d' ↔
              row ∈ monthly_schedule d ∧ row_month row ≠ month +:+ "-01")
    ∧ monthly_schedule d' `sublist_of` monthly_schedule d
    ∧ delete_month_schedule data d'
      = (inr (MessageBody (month +:+ " deleted"), 200%Z), d').
Proof.
  intros Hc Hm. unfold delete_month_schedule.
  rewrite decide_True by done. rewrite Hm. simpl.
  rewrite !M_bind_unfold. simpl.
  eexists. split_and!; [done|done| | |].
  - intros row. simpl. rewrite list_elem_of_filter. tauto.
  - apply sublist_filter.
  - repeat (rewrite M_bind_unfold; simpl). by rewrite filter_filter_same.
Qed.

Lemma delete_month_schedule_removes_witness :
  req_confirmation (ConfirmRequest (Some "CONFIRM") (Some "2024-04"))
  = Some "CONFIRM"
  ∧ req_target_month (ConfirmRequest (Some "CONFIRM") (Some "2024-04"))
    = Some "2024-04"
  ∧ ∃ d',
      delete_month_schedule
        (ConfirmRequest (Some "CONFIRM") (Some "2024-04")) other_table
      = (inr (MessageBody ("2024-04" +:+ " deleted"), 200%Z), d')
      ∧ staffs d' = staffs other_table
      ∧ (∀ row, row ∈ monthly_schedule d' ↔
                row ∈ monthly_schedule other_table
                ∧ row_month row ≠ "2024-04" +:+ "-01")
      ∧ monthly_schedule d' `sublist_of` monthly_schedule other_table
      ∧ delete_month_schedule
          (ConfirmRequest (Some "CONFIRM") (Some "2024-04")) d'
        = (inr (MessageBody ("2024-04" +:+ " deleted"), 200%Z), d').
Proof.
  split_and!; [reflexivity|reflexivity|].
  apply (delete_month_schedule_removes
           (ConfirmRequest (Some "CONFIRM") (Some "2024-04")) other_table
           "2024-04" eq_refl eq_refl).
Defined.

(** X13. For a month the schedule has no row of, deleting the month
    after a run for it gives the schedule back as it was before the run;
    the staff stay as the run left them: the counters it raised are not
    lowered again. *)
Theorem delete_after_generate utcnow data month d :
  month ≠ "" →
  req_confirmation data = Some "CONFIRM" →
  req_target_month data = Some month →
  Forall (λ row, row_month row ≠ month +:+ "-01") (monthly_schedule d) →
  ∃ scheduled shortage d1 d2,
    generate_monthly_schedule utcnow (ScheduleRequest (Some month)) d
    = (inr (ScheduleBody month scheduled shortage, 200%Z), d1)
    ∧ delete_month_schedule data d1
      = (inr (MessageBody (month +:+ " deleted"), 200%Z), d2)
    ∧ monthly_schedule d2 = monthly_schedule d
    ∧ staffs d2 = staffs d1.
Proof.
  intros Hmonth Hc Hm Hold.
  destruct (generate_monthly_schedule_run utcnow month d Hmonth)
    as (scheduled & short & Hrun & _).
  eexists _, _, _, _. split; [exact Hrun|].
  unfold delete_month_schedule. rewrite decide_True by done. rewrite Hm.
  simpl. rewrite !M_bind_unfold. simpl. split_and!; [done| |done].
  cbn [monthly_schedule].
  rewrite filter_app, (filter_all _ _ Hold), filter_none, app_nil_r; [done|].
  eapply Forall_impl; [apply rows_for_month|]. simpl. intros row -> H.
  by apply H.
Qed.

Lemma delete_after_generate_witness :
  "2024-05" ≠ ""
  ∧ req_confirmation (ConfirmRequest (Some "CONFIRM") (Some "2024-05"))
    = Some "CONFIRM"
  ∧ req_target_month (ConfirmRequest (Some "CONFIRM") (Some "2024-05"))
    = Some "2024-05"
  ∧ Forall (λ row, row_month row ≠ "2024-05" +:+ "-01")
      (monthly_schedule other_table)
  ∧ ∃ scheduled shortage d1 d2,
      generate_monthly_schedule sample_clock
        (ScheduleRequest (Some "2024-05")) other_table
      = (inr (ScheduleBody "2024-05" scheduled shortage, 200%Z), d1)
      ∧ delete_month_schedule
          (ConfirmRequest (Some "CONFIRM") (Some "2024-05")) d1
        = (inr (MessageBody ("2024-05" +:+ " deleted"), 200%Z), d2)
      ∧ monthly_schedule d2 = monthly_schedule other_table
      ∧ staffs d2 = staffs d1.
Proof.
  assert ("2024-05" ≠ "") as Hm by discriminate.
  assert (Forall (λ row, row_month row ≠ "2024-05" +:+ "-01")
            (monthly_schedule other_table))
    as Hold by (repeat constructor; discriminate).
  split_and!; [exact Hm|reflexivity|reflexivity|exact Hold|].
  apply (delete_after_generate sample_clock
           (ConfirmRequest (Some "CONFIRM") (Some "2024-05")) "2024-05"
           other_table Hm eq_refl eq_refl Hold).
Defined.

Lemma rows_for_views md ids slots :
  (λ r, SlotView (row_staff_id r) (row_weekday r) (row_gate r))
  <$> rows_for md ids slots
  = zip_with (λ sid slot, SlotView sid slot.1 slot.2) ids slots.
Proof.
  unfold rows_for. revert slots.
  induction ids as [|sid ids IH]; intros [|slot slots]; csimpl; try done.
  by rewrite IH.
Qed.

(** X14. [view_month_schedule] changes nothing, and after a run for a
    month it answers what it answered before the run followed by the
    assignments of the run on the slots of the layout, in order: a run
    adds to a month, it does not replace it. *)
Theorem view_month_after_generate utcnow month d :
  month ≠ "" →
  ∃ before scheduled shortage d1,
    view_month_schedule month d = (inr (before, 200%Z), d)
    ∧ generate_monthly_schedule utcnow (ScheduleRequest (Some month)) d
      = (inr (ScheduleBody month scheduled shortage, 200%Z), d1)
    ∧ view_month_schedule month d1
      = (inr (before
              ++ zip_with (λ sid slot, SlotView sid slot.1 slot.2)
                   (assignments_of (Supabase.free_staff d)) slot_layout,
              200%Z), d1).
Proof.
  intros Hmonth.
  destruct (generate_monthly_schedule_run utcnow month d Hmonth)
    as (scheduled & short & Hrun & _).
  eexists _, _, _, _. split_and!; [done|exact Hrun|].
  unfold view_month_schedule, select_month. rewrite M_bind_unfold.
  cbn [monthly_schedule].
  rewrite filter_app, fmap_app, (filter_all _ _ (rows_for_month _ _ _)).
  by rewrite rows_for_views.
Qed.

Lemma view_month_after_generate_witness :
  "2024-05" ≠ ""
  ∧ ∃ before scheduled shortage d1,
      view_month_schedule "2024-05" sample_table
      = (inr (before, 200%Z), sample_table)
      ∧ generate_monthly_schedule sample_clock
          (ScheduleRequest (Some "2024-05")) sample_table
        = (inr (ScheduleBody "2024-05" scheduled shortage, 200%Z), d1)
      ∧ view_month_schedule "2024-05" d1
        = (inr (before
                ++ zip_with (λ sid slot, SlotView sid slot.1 slot.2)
                     (assignments_of (Supabase.free_staff sample_table))
                     slot_layout,
                200%Z), d1).
Proof.
  assert ("2024-05" ≠ "") as Hm by discriminate.
  split; [exact Hm|].
  apply (view_month_after_generate sample_clock "2024-05" sample_table Hm).
Defined.

(** ** Viewing the staff *)

Section view_staffs_facts.
Variable id_leb : string → string → bool.

Let by_id (x y : staff_summary) : Prop :=
  id_leb (summary_staff_id x) (summary_staff_id y) = true.

Lemma insert_by_id_Permutation x l : insert_by_id id_leb x l ≡ₚ x :: l.
Proof.
  induction l as [|y l IH]; simpl; [done|].
  destruct (id_leb _ _); [done|]. rewrite IH. apply Permutation_swap.
Qed.

Lemma order_by_id_Permutation l : foldr (insert_by_id id_leb) [] l ≡ₚ l.
Proof.
  induction l as [|x l IH]; simpl; [done|].
  by rewrite insert_by_id_Permutation, IH.
Qed.

Hypothesis id_leb_total : ∀ a b, id_leb a b = true ∨ id_leb b a = true.

Lemma insert_by_id_HdRel a x l :
  by_id a x → HdRel by_id a l → HdRel by_id a (insert_by_id id_leb x l).
Proof using Type.
  intros Hax Hal. destruct l as [|y l]; simpl; [by constructor|].
  destruct (id_leb _ _); constructor; [done|]. by inversion Hal.
Qed.

Lemma insert_by_id_Sorted x l :
  Sorted by_id l → Sorted by_id (insert_by_id id_leb x l).
Proof using id_leb_total.
  induction 1 as [|y l Hl IH Hy]; simpl; [by repeat constructor|].
  destruct (id_leb (summary_staff_id x) (summary_staff_id y)) eqn:Hxy.
  - constructor; [by constructor|]. by constructor.
  - constructor; [done|]. apply insert_by_id_HdRel; [|done].
    unfold by_id. destruct (id_leb_total (summary_staff_id x)
                              (summary_staff_id y)); congruence.
Qed.

Lemma order_by_id_Sorted l : Sorted by_id (foldr (insert_by_id id_leb) [] l).
Proof using id_leb_total.
  induction l as [|x l IH]; simpl; [constructor|].
  by apply insert_by_id_Sorted.
Qed.
End view_staffs_facts.

(** X15. [view_staffs] changes nothing and lists every row of [staffs],
    busy or not, once, with its id, name, counter and month; when the
    order of the database on ids is total, the list is in that order. *)
Theorem view_staffs_lists_all id_leb d :
  ∃ l,
    view_staffs id_leb d = (inr (l, 200%Z), d)
    ∧ l ≡ₚ (λ s, StaffSummary (staff_id s) (staff_name s) (priority_count s)
                   (priority_updated_month s)) <$> staffs d
    ∧ ((∀ a b, id_leb a b = true ∨ id_leb b a = true) →
       Sorted (λ x y, id_leb (summary_staff_id x) (summary_staff_id y) = true)
         l).
Proof.
  eexists. split_and!; [done| |].
  - apply order_by_id_Permutation.
  - intros Htotal. by apply order_by_id_Sorted.
Qed.

Lemma view_staffs_lists_all_witness :
  (∀ a b, String.leb a b = true ∨ String.leb b a = true)
  ∧ ∃ l,
      view_staffs String.leb sample_table = (inr (l, 200%Z), sample_table)
      ∧ l ≡ₚ (λ s, StaffSummary (staff_id s) (staff_name s)
                     (priority_count s) (priority_updated_month s))
             <$> staffs sample_table
      ∧ ((∀ a b, String.leb a b = true ∨ String.leb b a = true) →
         Sorted (λ x y, String.leb (summary_staff_id x) (summary_staff_id y)
                        = true) l).
Proof.
  split; [exact String.leb_total|].
  apply (view_staffs_lists_all String.leb sample_table).
Defined.

(** X16. After a confirmed [reset_priority], [view_staffs] shows every
    staff member with the counter 0 and no month, under the id and name
    it had. *)
Theorem view_staffs_after_reset id_leb utcnow data d :
  req_confirmation data = Some "CONFIRM" →
  ∃ d0 l,
    reset_priority utcnow data d
    = (inr (MessageBody "All staff priorities reset", 200%Z), d0)
    ∧ view_staffs id_leb d0 = (inr (l, 200%Z), d0)
    ∧ l ≡ₚ (λ s, StaffSummary (staff_id s) (staff_name s) 0 None) <$> staffs d.
Proof.
  intros Hc. unfold reset_priority. rewrite decide_True by done.
  rewrite M_bind_unfold. simpl. eexists _, _. split_and!; [done|done|].
  rewrite order_by_id_Permutation. simpl. by rewrite <-list_fmap_compose.
Qed.

Lemma view_staffs_after_reset_witness :
  req_confirmation (ConfirmRequest (Some "CONFIRM") None) = Some "CONFIRM"
  ∧ ∃ d0 l,
      reset_priority sample_clock (ConfirmRequest (Some "CONFIRM") None)
        sample_table
      = (inr (MessageBody "All staff priorities reset", 200%Z), d0)
      ∧ view_staffs String.leb d0 = (inr (l, 200%Z), d0)
      ∧ l ≡ₚ (λ s, StaffSummary (staff_id s) (staff_name s) 0 None)
             <$> staffs sample_table.
Proof.
  split; [reflexivity|].
  apply (view_staffs_after_reset String.leb sample_clock
           (ConfirmRequest (Some "CONFIRM") None) sample_table eq_refl).
Defined.

(** ** Seats *)

Lemma rows_for_slot md ids slots day g :
  length (filter (λ r, row_weekday r = day ∧ row_gate r = g)
            (rows_for md ids slots))
  ≤ length (filter (λ s : string * string, s = (day, g)) slots).
Proof.
  unfold rows_for. revert slots.
  induction ids as [|sid ids IH]; intros [|[day' g'] slots]; simpl;
    try lia.
  rewrite !filter_cons. simpl. specialize (IH slots).
  destruct (decide (day' = day ∧ g' = g)) as [[-> ->]|Hne].
  - rewrite decide_True by done. simpl. lia.
  - rewrite decide_False by (intros [= -> ->]; by apply Hne). lia.
Qed.

(** The layout has every weekday and gate twice. *)
Lemma slot_layout_seats p :
  length (filter (λ s : string * string, s = p) slot_layout) ≤ 2.
Proof.
  destruct (decide (p ∈ slot_layout)) as [Hin|Hout].
  - apply list_elem_of_In in Hin. simpl in Hin.
    repeat (destruct Hin as [<-|Hin]; [vm_compute; lia|]). done.
  - rewrite filter_none; [simpl; lia|].
    apply Forall_forall. by intros s Hs ->.
Qed.

(** X17. A run puts at most two staff members on a gate on a weekday:
    of the rows it adds to the schedule, at most two carry the same
    weekday and gate. *)
Theorem two_seats_per_gate utcnow month_input month_date data d day g :
  ∃ rows,
    monthly_schedule (schedule_staff utcnow month_input month_date data d).2
    = monthly_schedule d ++ rows
    ∧ length rows = length (assignments_of data)
    ∧ length (filter (λ r, row_weekday r = day ∧ row_gate r = g) rows) ≤ 2.
Proof.
  destruct (schedule_staff_run utcnow month_input month_date data d)
    as (scheduled & short & -> & _).
  eexists. split_and!; [done| |].
  - rewrite rows_for_length, slot_layout_length.
    pose proof (assignments_length data). lia.
  - etrans; [apply rows_for_slot|apply slot_layout_seats].
Qed.

(** ** Answers and exceptions *)

